(** * pdfsat: navigation state machine, slide cache and notes parser

    A shallow embedding of [src/pdfsat.py]: the classes [SlideCache],
    [NotesLoader] and the navigation part of [PresenterWindow].  Python
    exceptions are modelled with a state-and-exception monad in which the
    state reached before a [raise] survives it, as Python mutations do. *)

From Stdlib Require Import ZArith Lia Ascii.
From Stdlib Require DecimalPos.
From stdpp Require Import base gmap list strings.

Open Scope Z_scope.
Set Implicit Arguments.

(* ------------------------------------------------------------------ *)
(** ** NotesLoader._parse_notes : marker splitting and slide assignment *)

Module Notes.

Local Open Scope string_scope.

(** Python's [str.isspace] restricted to one-byte characters:
    \t \n \v \f \r, \x1c-\x1f, space, \x85 and \xa0. *)
Definition is_space (c : Ascii.ascii) : bool :=
  let n := Ascii.nat_of_ascii c in
  ((9 <=? n) && (n <=? 13))%nat || ((28 <=? n) && (n <=? 32))%nat
  || (n =? 133)%nat || (n =? 160)%nat.

(** [\d] on one-byte characters: the ASCII digits. *)
Definition is_digit (c : Ascii.ascii) : bool :=
  let n := Ascii.nat_of_ascii c in ((48 <=? n) && (n <=? 57))%nat.

Definition digit_val (c : Ascii.ascii) : Z :=
  Z.of_nat (Ascii.nat_of_ascii c) - 48.

Fixpoint lstrip (s : string) : string :=
  match s with
  | EmptyString => EmptyString
  | String c s' => if is_space c then lstrip s' else s
  end.

Definition rstrip (s : string) : string :=
  String.rev (lstrip (String.rev s)).

(** [str.strip()] *)
Definition strip (s : string) : string := rstrip (lstrip s).

(** [\d+] at the front of [s], greedy: the digits read (as [int] reads
    them, accumulated in [acc]), their count, and what follows. *)
Fixpoint take_digits (s : string) (acc : Z) (n : nat) : Z * nat * string :=
  match s with
  | String c s' =>
      if is_digit c then take_digits s' (10 * acc + digit_val c) (S n)
      else (acc, n, s)
  | EmptyString => (acc, n, s)
  end.

(** [--\d+--] at the front of [s]: the value of the digits and the rest.
    Backtracking [\d+] to fewer digits leaves a digit before the closing
    [--], so the greedy reading is the only one that can succeed. *)
Definition numbered_prefix (s : string) : option (Z * string) :=
  match s with
  | String "-"%char (String "-"%char s1) =>
      match take_digits s1 0 0 with
      | (v, S _, String "-"%char (String "-"%char s2)) => Some (v, s2)
      | _ => None
      end
  | _ => None
  end.

(** The pattern [(---|--\d+--)] at the front of [s], alternatives tried in
    order: the matched text and the rest. *)
Definition marker_prefix (s : string) : option (string * string) :=
  match s with
  | String "-"%char (String "-"%char (String "-"%char rest)) => Some ("---", rest)
  | _ =>
      match numbered_prefix s with
      | Some (_, rest) =>
          Some (String.substring 0 (String.length s - String.length rest) s, rest)
      | None => None
      end
  end.

(** [re.split(r'(---|--\d+--)', content)]: a left-to-right scan; [cur]
    is the text since the last match, reversed.  Every match is non-empty,
    so [length s + 1] steps suffice (see [split_go_fuel] below). *)
Fixpoint split_go (fuel : nat) (s : string) (cur : string) : list string :=
  match fuel with
  | O => [String.rev cur ++ s]
  | S fuel' =>
      match s with
      | EmptyString => [String.rev cur]
      | String c s' =>
          match marker_prefix s with
          | Some (m, rest) => String.rev cur :: m :: split_go fuel' rest ""
          | None => split_go fuel' s' (String c cur)
          end
      end
  end.

Definition re_split (content : string) : list string :=
  split_go (S (String.length content)) content "".

(** [re.match(r'^--(\d+)--$', part_stripped)] with [int(group(1))]. *)
Definition numbered_marker (s : string) : option Z :=
  match numbered_prefix s with
  | Some (v, EmptyString) => Some v
  | _ => None
  end.

(** The loop over the parts: [current_slide] and [self.notes]. *)
Fixpoint parse_parts (current_slide : Z) (notes : gmap Z string)
    (parts : list string) : gmap Z string :=
  match parts with
  | [] => notes
  | part :: parts' =>
      let part_stripped := strip part in
      if String.eqb part_stripped "" then parse_parts current_slide notes parts'
      else if String.eqb part_stripped "---" then
        parse_parts (current_slide + 1) notes parts'
      else match numbered_marker part_stripped with
           | Some n => parse_parts (n - 1) notes parts'
           | None => parse_parts current_slide (<[current_slide := part_stripped]> notes) parts'
           end
  end.

(** The parsing half of [_parse_notes], on the decoded [content]. *)
Definition parse_notes (content : string) : gmap Z string :=
  parse_parts 0 ∅ (re_split content).

(** [get_notes] *)
Definition get_notes (notes : gmap Z string) (slide_num : Z) : string :=
  default "" (notes !! slide_num).

Definition nl : string := String (Ascii.ascii_of_nat 10) EmptyString.

Definition lines (ls : list string) : string := String.concat nl ls.

(** The (slide, text) assignments the loop of [parse_parts] performs, in
    order; the spec's "the last segment assigned to an index wins" reads
    the notes map as [last_assigned] of this list. *)
Fixpoint segment_assignments (current_slide : Z) (parts : list string)
    : list (Z * string) :=
  match parts with
  | [] => []
  | part :: parts' =>
      let part_stripped := strip part in
      if String.eqb part_stripped "" then segment_assignments current_slide parts'
      else if String.eqb part_stripped "---" then
        segment_assignments (current_slide + 1) parts'
      else match numbered_marker part_stripped with
           | Some n => segment_assignments (n - 1) parts'
           | None => (current_slide, part_stripped)
                       :: segment_assignments current_slide parts'
           end
  end.

(** The text of the last assignment to [k], if any. *)
Fixpoint last_assigned (k : Z) (l : list (Z * string)) : option string :=
  match l with
  | [] => None
  | (k', v) :: l' =>
      match last_assigned k l' with
      | Some v' => Some v'
      | None => if Z.eqb k' k then Some v else None
      end
  end.

End Notes.


(* ------------------------------------------------------------------ *)
(** ** NotesLoader._parse_notes : the ordered decode loop *)

Module Decode.

Inductive encoding := Utf8 | Latin1 | Cp1252 | Iso8859_1.

Definition encodings_to_try : list encoding := [Utf8; Latin1; Cp1252; Iso8859_1].

(** Outcome of the reading half of [_parse_notes] on a readable file:
    the loop found an encoding, or the [errors='replace'] fallback ran.
    Decoded text is a list of code points. *)
Inductive read_outcome :=
  | Decoded (enc : encoding) (content : list Z)
  | Replaced (content : list Z).

(** The universal newlines of [open(path, 'r', ...)] ([newline=None]):
    ["\r\n"] and a lone ["\r"] are read as ["\n"]. *)
Fixpoint translate_newlines (cs : list Z) : list Z :=
  match cs with
  | [] => []
  | c :: cs' =>
      if c =? 13 then
        match cs' with
        | c' :: cs'' => if c' =? 10 then 10 :: translate_newlines cs''
                        else 10 :: translate_newlines cs'
        | [] => [10]
        end
      else c :: translate_newlines cs'
  end.

Section Loop.

(** The strict codecs whose tables are irrelevant here: [None] is a
    [UnicodeDecodeError]. *)
Variable decode_utf8 : list Byte.byte -> option (list Z).
Variable decode_cp1252 : list Byte.byte -> option (list Z).
(** [encoding='utf-8', errors='replace'] never fails. *)
Variable decode_utf8_replace : list Byte.byte -> list Z.

(** latin-1 (= iso-8859-1) maps byte [b] to code point [b]. *)
Definition decode_latin1 (bs : list Byte.byte) : list Z :=
  map (fun b => Z.of_N (Byte.to_N b)) bs.

Definition decode (enc : encoding) (bs : list Byte.byte) : option (list Z) :=
  match enc with
  | Utf8 => decode_utf8 bs
  | Latin1 | Iso8859_1 => Some (decode_latin1 bs)
  | Cp1252 => decode_cp1252 bs
  end.

(** [for encoding in encodings_to_try: try: with open(...) as f:
    content = f.read(); break / except UnicodeDecodeError: continue];
    [f.read()] decodes the bytes, then translates the newlines. *)
Fixpoint try_encodings (encs : list encoding) (bs : list Byte.byte)
    : option (encoding * list Z) :=
  match encs with
  | [] => None
  | e :: encs' =>
      match decode e bs with
      | Some content => Some (e, translate_newlines content)
      | None => try_encodings encs' bs
      end
  end.

Definition read_notes_text (bs : list Byte.byte) : read_outcome :=
  match try_encodings encodings_to_try bs with
  | Some (e, content) => Decoded e content
  | None => Replaced (translate_newlines (decode_utf8_replace bs))
  end.

End Loop.

End Decode.

(* ------------------------------------------------------------------ *)
(** ** configparser: the checks behind [Config.set] and [Config.get], and
    [int] / [str] on the [last_slide] value *)

Module ConfigText.

Local Open Scope string_scope.

(** [value.replace('%%', '')]: left to right, without overlaps. *)
Fixpoint drop_escaped_percents (s : string) : string :=
  match s with
  | String "%"%char (String "%"%char r) => drop_escaped_percents r
  | String c r => String c (drop_escaped_percents r)
  | EmptyString => EmptyString
  end.

(** After ["%("], the rest of a match of [%\(([^)]+)\)s]: at least one
    character other than [")"], then [")s"]; returns what follows. *)
Fixpoint key_ref_rest (s : string) (nonempty : bool) : option string :=
  match s with
  | EmptyString => None
  | String ")"%char r =>
      if nonempty then match r with String "s"%char r' => Some r' | _ => None end
      else None
  | String _ r => key_ref_rest r true
  end.

(** [_KEYCRE.sub('', value)] with [_KEYCRE = re.compile(r"%\(([^)]+)\)s")]:
    a left-to-right scan removing every match.  Each step consumes a
    character, so [length s] steps suffice. *)
Fixpoint drop_key_refs_go (fuel : nat) (s : string) : string :=
  match fuel with
  | O => s
  | S fuel' =>
      match s with
      | EmptyString => EmptyString
      | String "%"%char (String "("%char r as t) =>
          match key_ref_rest r false with
          | Some r' => drop_key_refs_go fuel' r'
          | None => String "%" (drop_key_refs_go fuel' t)
          end
      | String c r => String c (drop_key_refs_go fuel' r)
      end
  end.

Definition drop_key_refs (s : string) : string := drop_key_refs_go (String.length s) s.

(** ['%' in s] *)
Fixpoint has_percent (s : string) : bool :=
  match s with
  | EmptyString => false
  | String c r => Ascii.eqb c "%" || has_percent r
  end.

(** [BasicInterpolation.before_set], which [ConfigParser.set] runs on
    every non-empty value: [ValueError] when a ['%'] is left once the
    escapes [%%] and the references [%(name)s] are removed. *)
Definition before_set_ok (value : string) : bool :=
  negb (has_percent (drop_key_refs (drop_escaped_percents value))).

(** The digits of [int(s)] after the sign: decimal digits with single
    underscores between digits; [after_digit] says whether the last
    character read was a digit. *)
Fixpoint int_digits (s : string) (acc : Z) (after_digit : bool) : option Z :=
  match s with
  | EmptyString => if after_digit then Some acc else None
  | String c r =>
      if Notes.is_digit c then int_digits r (10 * acc + Notes.digit_val c) true
      else if Ascii.eqb c "_" && after_digit then int_digits r acc false
      else None
  end.

(** [int(s)] for a [str]: surrounding whitespace (that of [str.strip]),
    an optional sign, then the digits; [None] is a [ValueError]. *)
Definition py_int (s : string) : option Z :=
  match Notes.strip s with
  | String "-"%char r => option_map Z.opp (int_digits r 0 false)
  | String "+"%char r => int_digits r 0 false
  | r => int_digits r 0 false
  end.

Fixpoint string_of_uint (d : Decimal.uint) : string :=
  match d with
  | Decimal.Nil => ""
  | Decimal.D0 d' => String "0" (string_of_uint d')
  | Decimal.D1 d' => String "1" (string_of_uint d')
  | Decimal.D2 d' => String "2" (string_of_uint d')
  | Decimal.D3 d' => String "3" (string_of_uint d')
  | Decimal.D4 d' => String "4" (string_of_uint d')
  | Decimal.D5 d' => String "5" (string_of_uint d')
  | Decimal.D6 d' => String "6" (string_of_uint d')
  | Decimal.D7 d' => String "7" (string_of_uint d')
  | Decimal.D8 d' => String "8" (string_of_uint d')
  | Decimal.D9 d' => String "9" (string_of_uint d')
  end.

(** [str(n)] for an [int]: a minus sign, then the decimal digits without
    leading zeros. *)
Definition str_of_Z (n : Z) : string :=
  match n with
  | Z0 => "0"
  | Zpos p => string_of_uint (Pos.to_uint p)
  | Zneg p => String "-" (string_of_uint (Pos.to_uint p))
  end.

End ConfigText.

(* ------------------------------------------------------------------ *)
(** ** A state-and-exception monad with Python's semantics of [raise]:
    the state reached before the exception is kept.  A call can also
    loop forever; nothing runs after it and no [except] catches it. *)

Inductive result (A : Type) :=
  | Ok (a : A)
  | Exc
  | Loops.

Arguments Ok {A} a.
Arguments Exc {A}.
Arguments Loops {A}.

Definition PyM (S A : Type) : Type := S -> S * result A.

Global Instance PyM_ret S : MRet (PyM S) := fun A a s => (s, Ok a).
Global Instance PyM_bind S : MBind (PyM S) := fun A B k m s =>
  match m s with
  | (s', Ok a) => k a s'
  | (s', Exc) => (s', Exc)
  | (s', Loops) => (s', Loops)
  end.

Definition py_raise {S A} : PyM S A := fun s => (s, Exc).
Definition py_get {S} : PyM S S := fun s => (s, Ok s).
Definition py_modify {S} (f : S -> S) : PyM S unit := fun s => (f s, Ok tt).
Definition py_pass {S} : PyM S unit := mret tt.

(** [try: body except Exception: handler] *)
Definition py_try {S} (body handler : PyM S unit) : PyM S unit := fun s =>
  match body s with
  | (s', Ok _) => (s', Ok tt)
  | (s', Exc) => handler s'
  | (s', Loops) => (s', Loops)
  end.

(** What the file system gives [NotesLoader] for a notes path: no file
    ([Path.exists()] is false), an [OSError] (from [exists()] or
    [open()]), or the text [_parse_notes] reads (decoded as in [Decode],
    newlines translated). *)
Inductive notes_file :=
  | NoFile
  | FileError
  | FileText (text : string).

(** [NotesLoader(path).notes] once the file system has answered:
    [_parse_notes] catches only [UnicodeDecodeError], so an [OSError]
    leaves the constructor. *)
Definition notes_of_file {S} (f : notes_file) : PyM S (gmap Z string) :=
  match f with
  | NoFile => mret ∅
  | FileError => py_raise
  | FileText text => mret (Notes.parse_notes text)
  end.

(* ------------------------------------------------------------------ *)
(** ** SlideCache and PresenterWindow *)

(** An opened PDF (a [fitz.Document]): its identity and [len(doc)]. *)
Record pdf := { pdf_name : string; page_count : Z }.

Section Presenter.

(** A rendered [QPixmap]. *)
Variable pixmap : Type.
(** [page.get_pixmap(matrix=Matrix(dpi/72, dpi/72))] followed by the
    [QImage]/[QPixmap] conversion, for a page of a document at a dpi;
    [None] when MuPDF raises on the page. *)
Variable render : pdf -> Z -> Z -> option pixmap.
(** Whether [Config.save] can write [~/.pdfsat.ini]; [open(..., 'w')]
    raises [OSError] otherwise. *)
Variable save_ok : bool.
(** [fitz.open(path)]; [None] when it raises. *)
Variable fitz_open : string -> option pdf.
(** The file [Path(p).with_name(Path(p).stem + '_notes.txt')] next to a
    PDF path [p], as [notes_path.exists()] and [NotesLoader] see it
    ([FileError] also when [with_name] raises). *)
Variable notes_for_pdf : string -> notes_file.
(** [str(Path(p).parent)] *)
Variable path_parent : string -> string.
(** [BasicInterpolation.before_get] on a stored [Session] value that
    contains a ['%'], given the section; [None] when it raises.  It
    depends on the rest of the configuration file, which is left open. *)
Variable interpolate : gmap string string -> string -> option string.

Record SlideCache := {
  doc : pdf;
  doc_closed : bool;
  dpi : Z;
  fullscreen_dpi : Z;
  cache : gmap Z pixmap;
  fullscreen_cache : gmap Z pixmap;
  total_slides : Z;
  (** ghost: the rasterizer calls made, as (page, dpi), newest first *)
  renders : list (Z * Z)
}.

(** [SlideCache.__init__(pdf_path)] with the default dpis 150 and 300. *)
Definition SlideCache_init (pdf_path : string) : option SlideCache :=
  match fitz_open pdf_path with
  | None => None
  | Some d =>
      Some {| doc := d; doc_closed := false; dpi := 150; fullscreen_dpi := 300;
              cache := ∅; fullscreen_cache := ∅; total_slides := page_count d;
              renders := [] |}
  end.

(** [self.doc[page_num]]: PyMuPDF's [Document.__getitem__] raises
    [IndexError] unless [page_num < page_count] (and [page_count] raises
    on a closed document); then [load_page] runs
    [while page_id < 0: page_id += page_count], which never ends on a
    document without pages and otherwise stops at [page_num mod page_count]. *)
Definition doc_getitem (page_num : Z) : PyM SlideCache Z := fun self =>
  let n := page_count (doc self) in
  if doc_closed self then (self, Exc)
  else if negb (page_num <? n) then (self, Exc)
  else if page_num <? 0 then
    (if n =? 0 then (self, Loops) else (self, Ok (page_num mod n)))
  else (self, Ok page_num).

(** [page.get_pixmap(...)], recorded in the ghost log. *)
Definition get_pixmap (page : Z) (target_dpi : Z) : PyM SlideCache pixmap := fun self =>
  let self' := {| doc := doc self; doc_closed := doc_closed self; dpi := dpi self;
                  fullscreen_dpi := fullscreen_dpi self; cache := cache self;
                  fullscreen_cache := fullscreen_cache self;
                  total_slides := total_slides self;
                  renders := (page, target_dpi) :: renders self |} in
  (self', match render (doc self) page target_dpi with
          | Some pm => Ok pm
          | None => Exc
          end).

(** [cache[page_num] = ...] in the cache chosen by [high_res]. *)
Definition store (high_res : bool) (page_num : Z) (pm : pixmap)
    (self : SlideCache) : SlideCache :=
  {| doc := doc self; doc_closed := doc_closed self; dpi := dpi self;
     fullscreen_dpi := fullscreen_dpi self;
     cache := if high_res then cache self else <[page_num := pm]> (cache self);
     fullscreen_cache :=
       if high_res then <[page_num := pm]> (fullscreen_cache self)
       else fullscreen_cache self;
     total_slides := total_slides self; renders := renders self |}.

(** [SlideCache.get_slide] *)
Definition get_slide (page_num : Z) (high_res : bool) : PyM SlideCache pixmap :=
  self ← py_get;
  let target_dpi := if high_res then fullscreen_dpi self else dpi self in
  let cache_ := if high_res then fullscreen_cache self else cache self in
  match cache_ !! page_num with
  | Some pm => mret pm
  | None =>
      page ← doc_getitem page_num;
      pix ← get_pixmap page target_dpi;
      py_modify (store high_res page_num pix);;
      mret pix
  end.

(** [SlideCache.close]: [self.doc.close()] (PyMuPDF raises on a document
    already closed), then both caches are cleared. *)
Definition close : PyM SlideCache unit := fun self =>
  if doc_closed self then (self, Exc)
  else ({| doc := doc self; doc_closed := true; dpi := dpi self;
           fullscreen_dpi := fullscreen_dpi self; cache := ∅; fullscreen_cache := ∅;
           total_slides := total_slides self; renders := renders self |}, Ok tt).

(** The navigation part of [PresenterWindow]'s attributes.  [is_presenting]
    stands for [self.is_presenting and self.fullscreen_window];
    [config_session] is the [Session] section of [self.config] (option
    name to stored value); [error_dialogs] collects the
    [QMessageBox.critical] texts shown. *)
Record PresenterWindow := {
  slide_cache : option SlideCache;
  current_slide : Z;
  preview_slide : Z;
  last_preview_before_updown : option Z;
  last_preview_used : bool;
  remembered_preview : option Z;
  notes_loader : option (gmap Z string);
  is_presenting : bool;
  config_session : gmap string string;
  error_dialogs : list string
}.

Definition set_slide_cache (v : option SlideCache) (w : PresenterWindow) : PresenterWindow :=
  {| slide_cache := v; current_slide := current_slide w; preview_slide := preview_slide w; last_preview_before_updown := last_preview_before_updown w; last_preview_used := last_preview_used w; remembered_preview := remembered_preview w; notes_loader := notes_loader w; is_presenting := is_presenting w; config_session := config_session w; error_dialogs := error_dialogs w |}.

Definition set_current_slide (v : Z) (w : PresenterWindow) : PresenterWindow :=
  {| slide_cache := slide_cache w; current_slide := v; preview_slide := preview_slide w; last_preview_before_updown := last_preview_before_updown w; last_preview_used := last_preview_used w; remembered_preview := remembered_preview w; notes_loader := notes_loader w; is_presenting := is_presenting w; config_session := config_session w; error_dialogs := error_dialogs w |}.

Definition set_preview_slide (v : Z) (w : PresenterWindow) : PresenterWindow :=
  {| slide_cache := slide_cache w; current_slide := current_slide w; preview_slide := v; last_preview_before_updown := last_preview_before_updown w; last_preview_used := last_preview_used w; remembered_preview := remembered_preview w; notes_loader := notes_loader w; is_presenting := is_presenting w; config_session := config_session w; error_dialogs := error_dialogs w |}.

Definition set_last_preview_before_updown (v : option Z) (w : PresenterWindow) : PresenterWindow :=
  {| slide_cache := slide_cache w; current_slide := current_slide w; preview_slide := preview_slide w; last_preview_before_updown := v; last_preview_used := last_preview_used w; remembered_preview := remembered_preview w; notes_loader := notes_loader w; is_presenting := is_presenting w; config_session := config_session w; error_dialogs := error_dialogs w |}.

Definition set_last_preview_used (v : bool) (w : PresenterWindow) : PresenterWindow :=
  {| slide_cache := slide_cache w; current_slide := current_slide w; preview_slide := preview_slide w; last_preview_before_updown := last_preview_before_updown w; last_preview_used := v; remembered_preview := remembered_preview w; notes_loader := notes_loader w; is_presenting := is_presenting w; config_session := config_session w; error_dialogs := error_dialogs w |}.

Definition set_remembered_preview (v : option Z) (w : PresenterWindow) : PresenterWindow :=
  {| slide_cache := slide_cache w; current_slide := current_slide w; preview_slide := preview_slide w; last_preview_before_updown := last_preview_before_updown w; last_preview_used := last_preview_used w; remembered_preview := v; notes_loader := notes_loader w; is_presenting := is_presenting w; config_session := config_session w; error_dialogs := error_dialogs w |}.

Definition set_notes_loader (v : option (gmap Z string)) (w : PresenterWindow) : PresenterWindow :=
  {| slide_cache := slide_cache w; current_slide := current_slide w; preview_slide := preview_slide w; last_preview_before_updown := last_preview_before_updown w; last_preview_used := last_preview_used w; remembered_preview := remembered_preview w; notes_loader := v; is_presenting := is_presenting w; config_session := config_session w; error_dialogs := error_dialogs w |}.

Definition set_config_session (v : gmap string string) (w : PresenterWindow) : PresenterWindow :=
  {| slide_cache := slide_cache w; current_slide := current_slide w; preview_slide := preview_slide w; last_preview_before_updown := last_preview_before_updown w; last_preview_used := last_preview_used w; remembered_preview := remembered_preview w; notes_loader := notes_loader w; is_presenting := is_presenting w; config_session := v; error_dialogs := error_dialogs w |}.

Definition set_error_dialogs (v : list string) (w : PresenterWindow) : PresenterWindow :=
  {| slide_cache := slide_cache w; current_slide := current_slide w; preview_slide := preview_slide w; last_preview_before_updown := last_preview_before_updown w; last_preview_used := last_preview_used w; remembered_preview := remembered_preview w; notes_loader := notes_loader w; is_presenting := is_presenting w; config_session := config_session w; error_dialogs := v |}.

(** The attributes [__init__] sets before [_load_last_session], with the
    [Session] section read from [~/.pdfsat.ini]. *)
Definition PresenterWindow_init (session : gmap string string) : PresenterWindow :=
  {| slide_cache := None; current_slide := 0; preview_slide := 1;
     last_preview_before_updown := None; last_preview_used := false;
     remembered_preview := None; notes_loader := None; is_presenting := false;
     config_session := session; error_dialogs := [] |}.

(** [self.slide_cache.<method>(...)]: the cache object is referenced by
    the window alone, so running the method on it and storing it back is
    the Python mutation. *)
Definition on_cache {A} (m : PyM SlideCache A) : PyM PresenterWindow A := fun w =>
  match slide_cache w with
  | None => (w, Exc)
  | Some sc => let '(sc', r) := m sc in (set_slide_cache (Some sc') w, r)
  end.

(** [self.config.set('Session', key, value)] *)
Definition config_set (key value : string) : PyM PresenterWindow unit := fun w =>
  if ConfigText.before_set_ok value
  then (set_config_session (<[key := value]> (config_session w)) w, Ok tt)
  else (w, Exc).

(** [self.config.get('Session', key, fallback=fallback)]: a value without
    ['%'] comes back as stored; [None] stands for Python's [None]. *)
Definition config_get (key : string) (fallback : option string)
    : PyM PresenterWindow (option string) := fun w =>
  match config_session w !! key with
  | None => (w, Ok fallback)
  | Some raw =>
      if ConfigText.has_percent raw then
        match interpolate (config_session w) raw with
        | Some v => (w, Ok (Some v))
        | None => (w, Exc)
        end
      else (w, Ok (Some raw))
  end.

(** [self.config.save()] *)
Definition config_save : PyM PresenterWindow unit := fun w =>
  if save_ok then (w, Ok tt) else (w, Exc).

Definition is_None {A} (o : option A) : bool :=
  match o with None => true | Some _ => false end.

(** Python's [o == v] for [o] an [int] or [None] and [v] an [int]. *)
Definition opt_eqb (o : option Z) (v : Z) : bool :=
  match o with Some x => x =? v | None => false end.

(** [update_slides]: the state it touches are the slide caches and the
    [last_slide] key; scaling, labels and the notes pane are display. *)
Definition update_slides : PyM PresenterWindow unit :=
  w ← py_get;
  match slide_cache w with
  | None => py_pass
  | Some sc =>
      _ ← on_cache (get_slide (current_slide w) false);
      (if preview_slide w <? total_slides sc
       then _ ← on_cache (get_slide (preview_slide w) false); py_pass
       else py_pass);;
      (if is_presenting w
       then _ ← on_cache (get_slide (current_slide w) true); py_pass
       else py_pass);;
      config_set "last_slide" (ConfigText.str_of_Z (current_slide w));;
      config_save
  end.

(** [preview_slide = x; if preview_slide >= total_slides: preview_slide = total_slides - 1] *)
Definition set_preview_clamped (total : Z) (x : Z) (w : PresenterWindow) : PresenterWindow :=
  let w := set_preview_slide x w in
  if preview_slide w >=? total then set_preview_slide (total - 1) w else w.

(** [next_slide] (advance) *)
Definition next_slide : PyM PresenterWindow unit :=
  w ← py_get;
  match slide_cache w with
  | Some sc =>
      if preview_slide w <? total_slides sc then
        py_modify (fun w =>
          let w := if negb (preview_slide w =? current_slide w + 1)
                      && is_None (last_preview_before_updown w)
                   then set_last_preview_before_updown (Some (current_slide w)) w
                   else w in
          let w := if last_preview_used w
                      && opt_eqb (last_preview_before_updown w) (preview_slide w)
                   then set_last_preview_before_updown None (set_last_preview_used false w)
                   else w in
          let w := set_current_slide (preview_slide w) w in
          set_preview_clamped (total_slides sc) (current_slide w + 1) w);;
        update_slides
      else py_pass
  | None => py_pass
  end.

(** [prev_slide] (retreat) *)
Definition prev_slide : PyM PresenterWindow unit :=
  w ← py_get;
  match slide_cache w with
  | Some sc =>
      if current_slide w >? 0 then
        py_modify (fun w =>
          let w := set_current_slide (current_slide w - 1) w in
          set_preview_clamped (total_slides sc) (current_slide w + 1) w);;
        update_slides
      else py_pass
  | None => py_pass
  end.

(** [preview_next] (preview_step_forward) *)
Definition preview_next : PyM PresenterWindow unit :=
  w ← py_get;
  match slide_cache w with
  | Some sc =>
      if preview_slide w <? total_slides sc - 1 then
        py_modify (fun w => set_preview_slide (preview_slide w + 1) w);; update_slides
      else py_pass
  | None => py_pass
  end.

(** [preview_prev] (preview_step_backward) *)
Definition preview_prev : PyM PresenterWindow unit :=
  w ← py_get;
  match slide_cache w with
  | Some _ =>
      if preview_slide w >? 0 then
        py_modify (fun w => set_preview_slide (preview_slide w - 1) w);; update_slides
      else py_pass
  | None => py_pass
  end.

(** [preview_restore_last] (preview_restore) *)
Definition preview_restore_last : PyM PresenterWindow unit :=
  w ← py_get;
  match slide_cache w, last_preview_before_updown w with
  | Some _, Some last =>
      py_modify (fun w => set_last_preview_used true (set_preview_slide last w));;
      update_slides
  | _, _ => py_pass
  end.

(** [preview_set_next] *)
Definition preview_set_next : PyM PresenterWindow unit :=
  w ← py_get;
  match slide_cache w with
  | Some sc =>
      py_modify (fun w => set_preview_clamped (total_slides sc) (current_slide w + 1) w);;
      update_slides
  | None => py_pass
  end.

(** [preview_set_prev] *)
Definition preview_set_prev : PyM PresenterWindow unit :=
  w ← py_get;
  match slide_cache w with
  | Some _ =>
      py_modify (fun w =>
        let w := set_preview_slide (current_slide w - 1) w in
        if preview_slide w <? 0 then set_preview_slide 0 w else w);;
      update_slides
  | None => py_pass
  end.

(** [preview_remember] *)
Definition preview_remember : PyM PresenterWindow unit :=
  w ← py_get;
  match slide_cache w with
  | Some _ => py_modify (fun w => set_remembered_preview (Some (preview_slide w)) w)
  | None => py_pass
  end.

(** [preview_goto_remembered] (recall) *)
Definition preview_goto_remembered : PyM PresenterWindow unit :=
  w ← py_get;
  match slide_cache w, remembered_preview w with
  | Some _, Some r => py_modify (set_preview_slide r);; update_slides
  | _, _ => py_pass
  end.

(** The navigation state [_load_pdf] sets once [current_slide] is known. *)
Definition load_reset (sc : SlideCache) (cur : Z) (w : PresenterWindow) : PresenterWindow :=
  let w := set_current_slide cur w in
  let w := set_preview_clamped (total_slides sc) (current_slide w + 1) w in
  let w := set_last_preview_before_updown None w in
  let w := set_last_preview_used false w in
  set_remembered_preview None w.

(** The slide [_load_pdf] starts at: [int(config.get('Session',
    'last_slide', fallback='0'))] when it is a valid index, else 0. *)
Definition restored_slide (sc : SlideCache) (restore_slide : bool) : PyM PresenterWindow Z :=
  if restore_slide then
    s ← config_get "last_slide" (Some "0");
    match s with
    | Some s =>
        match ConfigText.py_int s with
        | Some last_slide =>
            mret (if (0 <=? last_slide) && (last_slide <? total_slides sc)
                  then last_slide else 0)
        | None => py_raise
        end
    | None => py_raise
    end
  else mret 0.

(** [_load_pdf(pdf_path, restore_slide)].  With [restore_slide] the
    refresh is scheduled by [QTimer.singleShot] and runs later, outside
    this [try]. *)
Definition load_pdf (pdf_path : string) (restore_slide : bool)
    : PyM PresenterWindow unit :=
  py_try
    (w ← py_get;
     (match slide_cache w with Some _ => on_cache close | None => py_pass end);;
     match SlideCache_init pdf_path with
     | None => py_raise
     | Some sc =>
         py_modify (set_slide_cache (Some sc));;
         config_set "last_directory" (path_parent pdf_path);;
         config_set "last_file" pdf_path;;
         notes ← notes_of_file (notes_for_pdf pdf_path);
         py_modify (set_notes_loader (Some notes));;
         cur ← restored_slide sc restore_slide;
         py_modify (load_reset sc cur);;
         if restore_slide then py_pass else update_slides
     end)
    (py_modify (fun w => set_error_dialogs ("Failed to load PDF" :: error_dialogs w) w)).

(** The navigation commands of the key bindings. *)
Inductive command :=
  | Advance | Retreat | PreviewStepForward | PreviewStepBackward
  | PreviewRestore | PreviewSetToNext | PreviewSetToPrev | Remember | Recall.

Definition run_command (c : command) : PyM PresenterWindow unit :=
  match c with
  | Advance => next_slide
  | Retreat => prev_slide
  | PreviewStepForward => preview_next
  | PreviewStepBackward => preview_prev
  | PreviewRestore => preview_restore_last
  | PreviewSetToNext => preview_set_next
  | PreviewSetToPrev => preview_set_prev
  | Remember => preview_remember
  | Recall => preview_goto_remembered
  end.


End Presenter.

Unset Implicit Arguments.

(* ------------------------------------------------------------------ *)
(** ** FullScreenWindow : the audience display *)

Section FullScreen.

Context {pixmap : Type}.

(** PyQt's [bool(QPoint)] is [not isNull()]: false exactly at (0, 0). *)
Definition qpoint_truthy (p : Z * Z) : bool := negb ((fst p =? 0) && (snd p =? 0)).

(** [if self.pointer_pos:] for [None] or a [QPoint]. *)
Definition pointer_truthy (o : option (Z * Z)) : bool :=
  match o with None => false | Some p => qpoint_truthy p end.

(** What [slide_label] displays: nothing ([clear()]), or the scaled
    slide, with the laser pointer drawn at a position or without it. *)
Inductive label_content :=
  | Cleared
  | Shown (pm : pixmap) (pointer : option (Z * Z)).

(** The attributes of [FullScreenWindow]; a rendered slide is a non-null
    [QPixmap], so [not self.current_pixmap] is [current_pixmap = None]. *)
Record FullScreenWindow := {
  is_blanked : bool;
  current_pixmap : option pixmap;
  pointer_pos : option (Z * Z);
  slide_label : label_content
}.

Definition FullScreenWindow_init : FullScreenWindow :=
  {| is_blanked := false; current_pixmap := None; pointer_pos := None;
     slide_label := Cleared |}.

Definition set_slide_label (l : label_content) (f : FullScreenWindow) : FullScreenWindow :=
  {| is_blanked := is_blanked f; current_pixmap := current_pixmap f;
     pointer_pos := pointer_pos f; slide_label := l |}.

(** [_update_display] *)
Definition fs_update_display (f : FullScreenWindow) : FullScreenWindow :=
  match current_pixmap f with
  | None => f
  | Some pm =>
      if is_blanked f then f
      else if pointer_truthy (pointer_pos f) then set_slide_label (Shown pm (pointer_pos f)) f
      else set_slide_label (Shown pm None) f
  end.

(** [show_slide] *)
Definition fs_show_slide (pm : pixmap) (f : FullScreenWindow) : FullScreenWindow :=
  let f := {| is_blanked := is_blanked f; current_pixmap := Some pm;
              pointer_pos := pointer_pos f; slide_label := slide_label f |} in
  if is_blanked f then set_slide_label Cleared f
  else fs_update_display f.

(** [set_pointer_position] *)
Definition fs_set_pointer_position (pos : option (Z * Z)) (f : FullScreenWindow)
    : FullScreenWindow :=
  fs_update_display {| is_blanked := is_blanked f; current_pixmap := current_pixmap f;
                       pointer_pos := pos; slide_label := slide_label f |}.

(** [blank] *)
Definition fs_blank (f : FullScreenWindow) : FullScreenWindow :=
  {| is_blanked := true; current_pixmap := current_pixmap f;
     pointer_pos := pointer_pos f; slide_label := Cleared |}.

(** [unblank] *)
Definition fs_unblank (f : FullScreenWindow) : FullScreenWindow :=
  fs_update_display {| is_blanked := false; current_pixmap := current_pixmap f;
                       pointer_pos := pointer_pos f; slide_label := slide_label f |}.

(** The calls the presenter window makes on the audience window. *)
Inductive fs_call :=
  | ShowSlide (pm : pixmap)
  | SetPointerPosition (pos : option (Z * Z))
  | Blank
  | Unblank.

Definition fs_apply (c : fs_call) (f : FullScreenWindow) : FullScreenWindow :=
  match c with
  | ShowSlide pm => fs_show_slide pm f
  | SetPointerPosition pos => fs_set_pointer_position pos f
  | Blank => fs_blank f
  | Unblank => fs_unblank f
  end.

Definition fs_run (cs : list fs_call) (f : FullScreenWindow) : FullScreenWindow :=
  fold_left (fun f c => fs_apply c f) cs f.

End FullScreen.

Arguments label_content : clear implicits.
Arguments FullScreenWindow : clear implicits.
Arguments fs_call : clear implicits.

(* ------------------------------------------------------------------ *)
(** ** PresenterWindow : presenting, key handlers, notes files, drops *)

Section Session.

Context {pixmap : Type}.
Variable render : pdf -> Z -> Z -> option pixmap.
Variable save_ok : bool.
Variable fitz_open : string -> option pdf.
Variable notes_for_pdf : string -> notes_file.
Variable path_parent : string -> string.
Variable interpolate : gmap string string -> string -> option string.
(** [len(QApplication.screens())] *)
Variable screens : nat.
(** A notes file given by its path, as [NotesLoader] sees it. *)
Variable read_notes_file : string -> notes_file.
(** [Path(p).exists()] *)
Variable path_exists : string -> bool.

Definition set_is_presenting (v : bool) (w : PresenterWindow pixmap) : PresenterWindow pixmap :=
  {| slide_cache := slide_cache w; current_slide := current_slide w; preview_slide := preview_slide w; last_preview_before_updown := last_preview_before_updown w; last_preview_used := last_preview_used w; remembered_preview := remembered_preview w; notes_loader := notes_loader w; is_presenting := v; config_session := config_session w; error_dialogs := error_dialogs w |}.

(** The presenter window with its [is_blanked] attribute; the audience
    window's display and the timer labels are not part of the state. *)
Record PresenterState := {
  window : PresenterWindow pixmap;
  blanked : bool
}.

Definition on_window {A} (m : PyM (PresenterWindow pixmap) A) : PyM PresenterState A :=
  fun s => let '(w', r) := m (window s) in ({| window := w'; blanked := blanked s |}, r).

(** [_start_presentation]: with no screen at all, [screens[0]] raises
    [IndexError] before anything is shown. *)
Definition start_presentation : PyM PresenterState unit :=
  match screens with
  | O => py_raise
  | S _ =>
      s ← py_get;
      _ ← on_window (on_cache (get_slide render (current_slide (window s)) true));
      py_modify (fun s => {| window := set_is_presenting true (window s); blanked := false |})
  end.

(** [start_from_beginning] (F5) *)
Definition start_from_beginning : PyM PresenterState unit :=
  s ← py_get;
  match slide_cache (window s) with
  | None => py_pass
  | Some _ =>
      on_window (py_modify (set_current_slide 0));;
      on_window (py_modify (set_preview_slide 1));;
      on_window (update_slides render save_ok);;
      start_presentation
  end.

(** [start_from_current] (Shift+F5) *)
Definition start_from_current : PyM PresenterState unit :=
  s ← py_get;
  match slide_cache (window s) with
  | None => py_pass
  | Some _ => start_presentation
  end.

(** [stop_presenting] (Escape) *)
Definition stop_presenting : PyM PresenterState unit :=
  py_modify (fun s => {| window := set_is_presenting false (window s); blanked := false |}).

(** [toggle_blank] (B): unblanking re-fetches the high-resolution slide. *)
Definition toggle_blank : PyM PresenterState unit :=
  s ← py_get;
  if negb (is_presenting (window s)) then py_pass
  else
    py_modify (fun s => {| window := window s; blanked := negb (blanked s) |});;
    s ← py_get;
    if blanked s then py_pass
    else _ ← on_window (on_cache (get_slide render (current_slide (window s)) true)); py_pass.

(** The keys the handlers distinguish. *)
Inductive key :=
  | Key_Right | Key_Space | Key_Left | Key_Up | Key_Down | Key_Escape | Key_B
  | Key_0 | Key_1 | Key_9 | Key_R | Key_G | Key_F5 | Key_Other.

(** [PresenterWindow.keyPressEvent] (the [QShortcut]s bind the same keys
    to the same methods); [shift] is the Shift modifier. *)
Definition key_press_event (k : key) (shift : bool) : PyM PresenterState unit :=
  match k with
  | Key_Right | Key_Space => on_window (next_slide render save_ok)
  | Key_Left => on_window (prev_slide render save_ok)
  | Key_Up => on_window (preview_prev render save_ok)
  | Key_Down => on_window (preview_next render save_ok)
  | Key_Escape => stop_presenting
  | Key_B => toggle_blank
  | Key_0 => on_window (preview_restore_last render save_ok)
  | Key_1 => on_window (preview_set_next render save_ok)
  | Key_9 => on_window (preview_set_prev render save_ok)
  | Key_R => on_window (preview_remember (pixmap:=pixmap))
  | Key_G => on_window (preview_goto_remembered render save_ok)
  | Key_F5 => if shift then start_from_current else start_from_beginning
  | Key_Other => py_pass
  end.

(** [FullScreenWindow.keyPressEvent]: forwarded to the presenter window. *)
Definition fullscreen_key_press_event (k : key) : PyM PresenterState unit :=
  match k with
  | Key_Right | Key_Space => on_window (next_slide render save_ok)
  | Key_Left => on_window (prev_slide render save_ok)
  | Key_Escape => stop_presenting
  | Key_B => toggle_blank
  | _ => py_pass
  end.

Inductive key_event :=
  | PresenterKey (k : key) (shift : bool)
  | AudienceKey (k : key).

Definition run_key_event (e : key_event) : PyM PresenterState unit :=
  match e with
  | PresenterKey k shift => key_press_event k shift
  | AudienceKey k => fullscreen_key_press_event k
  end.

(** The states after each key event; an exception escaping a handler is
    reported by Qt and leaves the state it reached, and a handler that
    never returns ends the sequence. *)
Fixpoint run_key_events (es : list key_event) (s : PresenterState) : list PresenterState :=
  match es with
  | [] => []
  | e :: es' =>
      match run_key_event e s with
      | (_, Loops) => []
      | (s', _) => s' :: run_key_events es' s'
      end
  end.







(** [_load_last_session]: an empty [last_file] is falsy. *)
Definition load_last_session : PyM (PresenterWindow pixmap) unit :=
  last_file ← config_get interpolate "last_file" None;
  match last_file with
  | Some f =>
      if negb (String.eqb f "") && path_exists f
      then load_pdf render save_ok fitz_open notes_for_pdf path_parent interpolate f true
      else py_pass
  | None => py_pass
  end.

(** [closeEvent]: the audience window is closed, then the cache. *)
Definition close_event : PyM (PresenterWindow pixmap) unit :=
  w ← py_get;
  match slide_cache w with
  | Some _ => on_cache (@close pixmap)
  | None => py_pass
  end.

End Session.

Arguments PresenterState : clear implicits.

(** A concrete rasterizer and file system for evaluating the model. *)
Module Concrete.

Local Open Scope string_scope.

(** A bitmap is identified by the page and dpi it was drawn at. *)
Definition bitmap : Type := (Z * Z)%type.

Definition render (d : pdf) (page target_dpi : Z) : option bitmap :=
  Some (page, target_dpi).

Definition fitz_open (path : string) : option pdf :=
  if String.eqb path "one.pdf" then Some {| pdf_name := "one.pdf"; page_count := 1 |}
  else if String.eqb path "ten.pdf" then Some {| pdf_name := "ten.pdf"; page_count := 10 |}
  else if String.eqb path "empty.pdf" then Some {| pdf_name := "empty.pdf"; page_count := 0 |}
  else None.

(** No PDF has a notes file next to it. *)
Definition notes_for_pdf (_ : string) : notes_file := NoFile.

(** [str(Path(p).parent)] for the bare file names used here. *)
Definition path_parent (_ : string) : string := ".".

(** Interpolation of a value with a ['%']: every such value is refused. *)
Definition interpolate (_ : gmap string string) (_ : string) : option string := None.

(** The configuration file can be written. *)
Definition save_ok : bool := true.

Definition fresh_window : PresenterWindow bitmap :=
  {| slide_cache := None; current_slide := 0; preview_slide := 0;
     last_preview_before_updown := None; last_preview_used := false;
     remembered_preview := None; notes_loader := None; is_presenting := false;
     config_session := ∅; error_dialogs := [] |}.

Definition load (path : string) (w : PresenterWindow bitmap) : PresenterWindow bitmap * result unit :=
  load_pdf render save_ok fitz_open notes_for_pdf path_parent interpolate path false w.

Definition step (c : command) (w : PresenterWindow bitmap) : PresenterWindow bitmap * result unit :=
  run_command render save_ok c w.

(** A freshly opened cache of a document of [n] pages, and a window
    holding it with the given current and preview slides. *)
Definition open_cache (name : string) (n : Z) : SlideCache bitmap :=
  {| doc := {| pdf_name := name; page_count := n |}; doc_closed := false;
     dpi := 150; fullscreen_dpi := 300; cache := ∅; fullscreen_cache := ∅;
     total_slides := n; renders := [] |}.

Definition one_cache : SlideCache bitmap := open_cache "one.pdf" 1.

Definition ten_cache : SlideCache bitmap := open_cache "ten.pdf" 10.

Definition window_at (sc : SlideCache bitmap) (cur prev : Z) : PresenterWindow bitmap :=
  set_preview_slide prev (set_current_slide cur (set_slide_cache (Some sc) fresh_window)).

(** The presenter state over [ten_cache], not blanked. *)
Definition ten_state (cur prev : Z) : PresenterState bitmap :=
  {| window := window_at ten_cache cur prev; blanked := false |}.


(** [Path(p).exists()]: the documents above exist. *)
Definition path_exists (path : string) : bool :=
  match fitz_open path with Some _ => true | None => false end.

(** A window as [__init__] leaves it before the session is restored, with
    the [Session] keys [last_file = ten.pdf] and [last_slide = 7]. *)
Definition saved_window : PresenterWindow bitmap :=
  PresenterWindow_init bitmap (<["last_slide" := "7"]> (<["last_file" := "ten.pdf"]> ∅)).

End Concrete.


(* ------------------------------------------------------------------ *)
(** ** Relations on windows used by the proofs *)

(** [w'] has the navigation fields of [w], and a cache of the same size
    whenever [w] has one. *)
Definition nav_eq {pixmap} (w w' : PresenterWindow pixmap) : Prop :=
  current_slide w' = current_slide w /\
  preview_slide w' = preview_slide w /\
  last_preview_before_updown w' = last_preview_before_updown w /\
  last_preview_used w' = last_preview_used w /\
  remembered_preview w' = remembered_preview w /\
  (forall sc, slide_cache w = Some sc ->
     exists sc', slide_cache w' = Some sc' /\ total_slides sc' = total_slides sc).

Definition preserves_nav {pixmap A} (m : PyM (PresenterWindow pixmap) A) : Prop :=
  forall w, nav_eq w (fst (m w)).

(** The ranges of the navigation fields for a document of [total] slides. *)
Definition nav_inv {pixmap} (total : Z) (w : PresenterWindow pixmap) : Prop :=
  (exists sc, slide_cache w = Some sc /\ total_slides sc = total) /\
  0 <= current_slide w < total /\
  0 <= preview_slide w <= total /\
  (forall o, last_preview_before_updown w = Some o -> 0 <= o < total) /\
  (forall r, remembered_preview w = Some r -> 0 <= r <= total).

(** [s] is empty or starts with a character [str.strip] keeps. *)
Definition starts_nonspace (s : string) : Prop :=
  match s with EmptyString => True | String c _ => Notes.is_space c = false end.

(** The page [doc[k]] loads in a document of [n] pages. *)
Definition page_index (n k : Z) : Z := if k <? 0 then k mod n else k.

(** Every bitmap in the two caches of [sc] is the rasterization of the
    page its key loads at the dpi of its tier. *)
Definition cache_sound {pixmap} (render : pdf -> Z -> Z -> option pixmap)
    (sc : SlideCache pixmap) : Prop :=
  (forall k pm, cache sc !! k = Some pm ->
     render (doc sc) (page_index (page_count (doc sc)) k) (dpi sc) = Some pm) /\
  (forall k pm, fullscreen_cache sc !! k = Some pm ->
     render (doc sc) (page_index (page_count (doc sc)) k) (fullscreen_dpi sc) = Some pm).

(** What [slide_label] displays when it agrees with the attributes of the
    audience window: nothing while blanked or without a slide, else the
    slide with the pointer drawn when [pointer_pos] is truthy. *)
Definition fs_expected_label {pixmap} (f : FullScreenWindow pixmap) : label_content pixmap :=
  if is_blanked f then Cleared
  else match current_pixmap f with
       | None => Cleared
       | Some pm => Shown pm (if pointer_truthy (pointer_pos f) then pointer_pos f else None)
       end.

(** [w'] keeps the notes and the presenting flag of [w], and a cache of
    the same document, open or closed as before (none if [w] had none). *)
Definition win_frame {pixmap} (w w' : PresenterWindow pixmap) : Prop :=
  notes_loader w' = notes_loader w /\ is_presenting w' = is_presenting w /\
  (forall sc, slide_cache w = Some sc ->
     exists sc', slide_cache w' = Some sc' /\ doc sc' = doc sc /\
                 doc_closed sc' = doc_closed sc /\ total_slides sc' = total_slides sc) /\
  (slide_cache w = None -> slide_cache w' = None).


(** [m] keeps the navigation ranges of a document of [T] slides. *)
Definition keeps_nav_inv {pixmap A} (T : Z) (m : PyM (PresenterState pixmap) A) : Prop :=
  forall s, nav_inv T (window s) -> nav_inv T (window (fst (m s))).

(* ================================================================== *)
(** * Properties *)

(** Digit strings, as [str] writes a non-negative [int], and the value
    [int()] reads from them. *)
Fixpoint all_digits (s : string) : bool :=
  match s with
  | EmptyString => true
  | String c r => Notes.is_digit c && all_digits r
  end.

Fixpoint uint_val (l : Decimal.uint) (acc : Z) : Z :=
  match l with
  | Decimal.Nil => acc
  | Decimal.D0 l => uint_val l (10 * acc + 0)
  | Decimal.D1 l => uint_val l (10 * acc + 1)
  | Decimal.D2 l => uint_val l (10 * acc + 2)
  | Decimal.D3 l => uint_val l (10 * acc + 3)
  | Decimal.D4 l => uint_val l (10 * acc + 4)
  | Decimal.D5 l => uint_val l (10 * acc + 5)
  | Decimal.D6 l => uint_val l (10 * acc + 6)
  | Decimal.D7 l => uint_val l (10 * acc + 7)
  | Decimal.D8 l => uint_val l (10 * acc + 8)
  | Decimal.D9 l => uint_val l (10 * acc + 9)
  end.

Module NotesProofs.

Import Notes.
Local Open Scope string_scope.

Lemma parse_parts_last (parts : list string) (c : Z) (m : gmap Z string) (k : Z) :
  parse_parts c m parts !! k =
  match last_assigned k (segment_assignments c parts) with
  | Some v => Some v
  | None => m !! k
  end.
Proof.
  revert c m. induction parts as [|part parts IH]; intros c m; simpl; [done|].
  destruct (String.eqb (strip part) "") ; [apply IH|].
  destruct (String.eqb (strip part) "---"); [apply IH|].
  destruct (numbered_marker (strip part)) as [n|]; [apply IH|].
  simpl. rewrite IH. destruct (last_assigned k _) as [v'|]; [done|].
  destruct (Z.eqb_spec c k) as [->|Hne].
  - by rewrite lookup_insert_eq.
  - by rewrite lookup_insert_ne.
Qed.

Lemma take_digits_nonneg (s : string) (acc : Z) (n : nat) :
  0 <= acc -> 0 <= fst (fst (take_digits s acc n)).
Proof.
  revert acc n. induction s as [|c s IH]; intros acc n Hacc; simpl; [lia|].
  destruct (is_digit c) eqn:Hd; simpl; [|lia].
  apply IH. unfold is_digit in Hd. unfold digit_val.
  apply andb_true_iff in Hd as [H1 _]. apply Nat.leb_le in H1. lia.
Qed.

Lemma numbered_marker_nonneg (s : string) (n : Z) :
  numbered_marker s = Some n -> 0 <= n.
Proof.
  unfold numbered_marker, numbered_prefix. intros H.
  destruct s as [|a [|b s1]]; [discriminate| repeat case_match; discriminate |].
  pose proof (take_digits_nonneg s1 0 0 ltac:(lia)) as Hv.
  destruct (take_digits s1 0 0) as [[v cnt] rest]. simpl in Hv.
  repeat case_match; simplify_eq; lia.
Qed.

Lemma parse_parts_keys (parts : list string) (c : Z) (m : gmap Z string) :
  -1 <= c -> (forall k v, m !! k = Some v -> -1 <= k) ->
  forall k v, parse_parts c m parts !! k = Some v -> -1 <= k.
Proof.
  revert c m. induction parts as [|part parts IH]; intros c m Hc Hm; simpl; [done|].
  destruct (String.eqb (strip part) ""); [by apply IH|].
  destruct (String.eqb (strip part) "---"); [apply IH; [lia|done]|].
  destruct (numbered_marker (strip part)) as [n|] eqn:Hn.
  - apply numbered_marker_nonneg in Hn. apply IH; [lia|done].
  - apply IH; [done|]. intros k v Hk.
    destruct (Z.eqb_spec c k) as [->|Hne]; [done|].
    rewrite lookup_insert_ne in Hk by done. eauto.
Qed.

(** C6: on the spec's inputs the parser yields [{1: "foo", 2: "bar"}] and
    [{0: "alpha", 1: "beta", 2: "gamma"}]; a text assigned to an index
    already holding one replaces it (here by a repeated marker and by
    mixing marker styles); and in general the note at every index is the
    text of the last segment assigned to it. *)
Theorem notes_parse_markers :
  parse_notes (lines ["--2--"; "foo"; "---"; "bar"])
    = <[1 := "foo"]> (<[2 := "bar"]> ∅) /\
  parse_notes (lines ["alpha"; "---"; "beta"; "---"; "gamma"])
    = <[0 := "alpha"]> (<[1 := "beta"]> (<[2 := "gamma"]> ∅)) /\
  parse_notes (lines ["--1--"; "x"; "--1--"; "y"]) = <[0 := "y"]> ∅ /\
  parse_notes (lines ["first"; "---"; "second"; "--1--"; "third"])
    = <[0 := "third"]> (<[1 := "second"]> ∅) /\
  (forall (content : string) (k : Z),
     parse_notes content !! k = last_assigned k (segment_assignments 0 (re_split content))).
Proof.
  split; [vm_compute; reflexivity|].
  split; [vm_compute; reflexivity|].
  split; [vm_compute; reflexivity|].
  split; [vm_compute; reflexivity|].
  intros content k. unfold parse_notes. rewrite parse_parts_last.
  by destruct (last_assigned _ _).
Qed.

(** C7 (counterexample): a marker [--0--] makes the text after it land at
    key -1, so not every key is non-negative. *)
Lemma notes_keys_nonneg_counterexample :
  ~ (forall (content : string) (k : Z) (v : string),
       parse_notes content !! k = Some v -> 0 <= k).
Proof.
  intros H.
  assert (Hk : parse_notes (lines ["--0--"; "foo"]) !! (-1) = Some "foo")
    by (vm_compute; reflexivity).
  apply H in Hk. lia.
Qed.

(** C7 (amended): every key of the parsed notes is at least -1. *)
Theorem notes_keys_ge_minus_one (content : string) (k : Z) (v : string) :
  parse_notes content !! k = Some v -> -1 <= k.
Proof.
  unfold parse_notes. apply parse_parts_keys; [lia|].
  intros ?? Hk. by rewrite lookup_empty in Hk.
Qed.

Lemma notes_keys_ge_minus_one_witness :
  parse_notes (lines ["--0--"; "foo"]) !! (-1) = Some "foo" /\ -1 <= -1.
Proof.
  split; [vm_compute; reflexivity|].
  apply (notes_keys_ge_minus_one (lines ["--0--"; "foo"]) (-1) "foo").
  vm_compute; reflexivity.
Defined.

End NotesProofs.

Module DecodeProofs.

Import Decode.

(** C9: for any byte content of a readable file and whatever the strict
    utf-8 and cp1252 codecs do, the decode loop stops at utf-8 or at
    latin-1 (which decodes every byte), so cp1252, iso-8859-1 and the
    [errors='replace'] fallback are never reached and no decode error
    escapes; the latin-1 text is the bytes as code points with the
    newlines translated. *)
Theorem notes_decode_total
    (decode_utf8 decode_cp1252 : list Byte.byte -> option (list Z))
    (decode_utf8_replace : list Byte.byte -> list Z) (bs : list Byte.byte) :
  exists enc content,
    read_notes_text decode_utf8 decode_cp1252 decode_utf8_replace bs = Decoded enc content /\
    (enc = Utf8 \/
     (enc = Latin1 /\ decode_utf8 bs = None /\
      content = translate_newlines (decode_latin1 bs))).
Proof.
  unfold read_notes_text; simpl.
  destruct (decode_utf8 bs) as [content|] eqn:Hu.
  - exists Utf8, (translate_newlines content). auto.
  - exists Latin1, (translate_newlines (decode_latin1 bs)). auto.
Qed.

End DecodeProofs.

Module PresenterProofs.

Ltac py_simpl :=
  unfold mbind, mret, PyM_bind, PyM_ret, py_get, py_modify, py_pass, py_raise in *;
  simpl in *.

Ltac zbools :=
  repeat match goal with
  | H : (_ <=? _) = true |- _ => apply Z.leb_le in H
  | H : (_ <=? _) = false |- _ => apply Z.leb_gt in H
  | H : (_ <? _) = true |- _ => apply Z.ltb_lt in H
  | H : (_ <? _) = false |- _ => apply Z.ltb_ge in H
  | H : (_ =? _) = true |- _ => apply Z.eqb_eq in H
  | H : (_ =? _) = false |- _ => apply Z.eqb_neq in H
  | H : (_ >=? _) = true |- _ => apply Z.geb_le in H
  | H : (_ >=? _) = false |- _ => rewrite Z.geb_leb in H; apply Z.leb_gt in H
  | H : (_ >? _) = true |- _ => apply Z.gtb_lt in H
  | H : (_ >? _) = false |- _ => rewrite Z.gtb_ltb in H; apply Z.ltb_ge in H
  end.

Section Nav.

Context {pixmap : Type} (render : pdf -> Z -> Z -> option pixmap) (save_ok : bool).

Lemma nav_eq_refl (w : PresenterWindow pixmap) : nav_eq w w.
Proof. repeat split; eauto. Qed.

Lemma nav_eq_trans (w1 w2 w3 : PresenterWindow pixmap) :
  nav_eq w1 w2 -> nav_eq w2 w3 -> nav_eq w1 w3.
Proof.
  intros (?&?&?&?&?&Hc1) (?&?&?&?&?&Hc2). repeat split; try congruence.
  intros sc Hsc. destruct (Hc1 sc Hsc) as (sc2 & Hsc2 & Ht2).
  destruct (Hc2 sc2 Hsc2) as (sc3 & Hsc3 & Ht3). exists sc3. split; congruence.
Qed.

Lemma preserves_ret {A} (a : A) : preserves_nav (pixmap:=pixmap) (mret a).
Proof. intros w. apply nav_eq_refl. Qed.

Lemma preserves_bind {A B} (m : PyM (PresenterWindow pixmap) A)
    (k : A -> PyM (PresenterWindow pixmap) B) :
  preserves_nav m -> (forall a, preserves_nav (k a)) -> preserves_nav (m ≫= k).
Proof.
  intros Hm Hk w. py_simpl. specialize (Hm w).
  destruct (m w) as [w' [a| |]]; simpl in *; [|done|done].
  eapply nav_eq_trans; [exact Hm|apply Hk].
Qed.

Lemma get_slide_total (p : Z) (hr : bool) (sc : SlideCache pixmap) :
  total_slides (fst (get_slide render p hr sc)) = total_slides sc.
Proof.
  unfold get_slide, doc_getitem, get_pixmap. py_simpl.
  repeat (case_match; simpl in *; simplify_eq; try done).
Qed.

Lemma on_cache_get_slide (p : Z) (hr : bool) :
  preserves_nav (on_cache (get_slide render p hr)).
Proof.
  intros w. unfold on_cache. destruct (slide_cache w) as [sc|] eqn:Hsc.
  - pose proof (get_slide_total p hr sc) as Ht.
    destruct (get_slide render p hr sc) as [sc' r]. simpl in *.
    repeat split; try done. intros sc0 Hsc0. rewrite Hsc in Hsc0. simplify_eq.
    by exists sc'.
  - apply nav_eq_refl.
Qed.

Lemma config_set_preserves (key value : string) :
  preserves_nav (pixmap:=pixmap) (config_set key value).
Proof.
  intros w. unfold config_set. case_match; [|apply nav_eq_refl].
  repeat split; simpl; eauto.
Qed.

Lemma config_save_preserves : preserves_nav (pixmap:=pixmap) (config_save save_ok).
Proof. intros w. unfold config_save. case_match; apply nav_eq_refl. Qed.

Lemma update_slides_preserves : preserves_nav (update_slides render save_ok).
Proof.
  intros w. unfold update_slides.
  apply (preserves_bind py_get); [intros w0; apply nav_eq_refl|].
  intros w0. destruct (slide_cache w0) as [sc|]; [|apply preserves_ret].
  apply preserves_bind; [apply on_cache_get_slide|intros _].
  apply preserves_bind.
  { case_match; [apply preserves_bind; [apply on_cache_get_slide|intros _; apply preserves_ret]
                |apply preserves_ret]. }
  intros _. apply preserves_bind.
  { case_match; [apply preserves_bind; [apply on_cache_get_slide|intros _; apply preserves_ret]
                |apply preserves_ret]. }
  intros _. apply preserves_bind; [apply config_set_preserves|intros _].
  apply config_save_preserves.
Qed.

(** The navigation fields of [fst (update_slides render save_ok w)] are those of [w]. *)
Lemma update_slides_fields (w : PresenterWindow pixmap) :
  let w' := fst (update_slides render save_ok w) in
  current_slide w' = current_slide w /\ preview_slide w' = preview_slide w /\
  last_preview_before_updown w' = last_preview_before_updown w /\
  last_preview_used w' = last_preview_used w /\
  remembered_preview w' = remembered_preview w.
Proof.
  destruct (update_slides_preserves w) as (?&?&?&?&?&_). simpl. auto.
Qed.

Lemma get_slide_meta (p : Z) (hr : bool) (sc : SlideCache pixmap) :
  let sc' := fst (get_slide render p hr sc) in
  doc sc' = doc sc /\ doc_closed sc' = doc_closed sc /\ total_slides sc' = total_slides sc.
Proof.
  unfold get_slide, doc_getitem, get_pixmap, store. py_simpl.
  repeat (case_match; simplify_eq/=); auto.
Qed.

(** Only a negative index can make [doc[page_num]] loop. *)
Lemma get_slide_loops (p : Z) (hr : bool) (sc : SlideCache pixmap) :
  snd (get_slide render p hr sc) = Loops -> p < 0.
Proof.
  unfold get_slide, doc_getitem, get_pixmap, store. py_simpl.
  repeat (case_match; simplify_eq/=); zbools; try discriminate; auto.
Qed.

Ltac get_slide_facts :=
  repeat match goal with
  | H : get_slide render ?p ?hr ?s = (?s', ?res) |- _ =>
      let M := fresh "M" in let L := fresh "L" in
      pose proof (get_slide_meta p hr s) as M; pose proof (get_slide_loops p hr s) as L;
      rewrite H in M, L; simpl in M, L; clear H
  end.

(** [update_slides] changes only the caches' contents and the stored
    [last_slide]. *)
Lemma update_slides_window (w : PresenterWindow pixmap) :
  win_frame w (fst (update_slides render save_ok w)) /\
  error_dialogs (fst (update_slides render save_ok w)) = error_dialogs w.
Proof.
  unfold update_slides, on_cache, config_set, config_save. py_simpl.
  destruct (slide_cache w) as [sc|] eqn:Hsc;
    [|unfold win_frame; simpl; repeat split; auto; intros; congruence].
  repeat (case_match; unfold mret, PyM_ret in *; simplify_eq/=); get_slide_facts;
    unfold win_frame; simpl; repeat split; auto; intros; simplify_eq; try congruence;
    eexists; repeat split; intuition congruence.
Qed.

(** With both indices non-negative the refresh never loops. *)
Lemma update_slides_no_loop (w : PresenterWindow pixmap) :
  0 <= current_slide w -> 0 <= preview_slide w ->
  snd (update_slides render save_ok w) <> Loops.
Proof.
  intros Hc Hp. unfold update_slides, on_cache, config_set, config_save. py_simpl.
  destruct (slide_cache w) as [sc|] eqn:Hsc; [|discriminate].
  repeat (case_match; unfold mret, PyM_ret in *; simplify_eq/=); get_slide_facts; try discriminate;
    repeat match goal with L : Loops = Loops -> _ |- _ => specialize (L eq_refl) end; lia.
Qed.

Theorem advance_clamps_preview (w : PresenterWindow pixmap) (sc : SlideCache pixmap) :
  slide_cache w = Some sc -> preview_slide w < total_slides sc ->
  current_slide (fst (next_slide render save_ok w)) = preview_slide w /\
  preview_slide (fst (next_slide render save_ok w)) = Z.min (preview_slide w + 1) (total_slides sc - 1).
Proof.
  intros Hsc Hlt. unfold next_slide. py_simpl. rewrite Hsc.
  rewrite (proj2 (Z.ltb_lt _ _) Hlt). py_simpl.
  match goal with |- context [update_slides render save_ok ?W] =>
    destruct (update_slides_fields W) as (-> & -> & _) end.
  unfold set_preview_clamped.
  destruct (preview_slide w =? current_slide w + 1), (last_preview_before_updown w) as [o|],
    (last_preview_used w); simpl; repeat (case_match; simpl in * ); zbools; lia.
Qed.

Lemma nav_inv_transfer (T : Z) (w w' : PresenterWindow pixmap) :
  nav_inv T w -> nav_eq w w' -> nav_inv T w'.
Proof.
  intros ((sc & Hsc & Ht) & Hc & Hp & Ho & Hr) (Ec & Ep & Eo & Eu & Er & Es).
  destruct (Es sc Hsc) as (sc' & Hsc' & Ht').
  split; [exists sc'; split; congruence|].
  rewrite Ec, Ep, Eo, Er. auto.
Qed.

Ltac inv_solve :=
  repeat match goal with
  | Hf : forall o, Some ?z = Some o -> _ |- _ => pose proof (Hf z eq_refl); clear Hf
  end;
  lazymatch goal with
  | |- nav_inv _ (fst (update_slides _ _ ?W)) =>
      eapply nav_inv_transfer; [|apply (update_slides_preserves W)]
  | _ => idtac
  end;
  unfold nav_inv in *; simpl in *;
  (split; [eexists; split; [eassumption|reflexivity]|]);
  repeat split; intros; simplify_eq; zbools;
  repeat match goal with
  | H : ?x = Some _, Hf : forall _, ?x = Some _ -> _ |- _ =>
      pose proof (Hf _ H); clear H
  end; lia.

Lemma command_inv (c : command) (w : PresenterWindow pixmap) (sc : SlideCache pixmap) :
  slide_cache w = Some sc -> nav_inv (total_slides sc) w ->
  nav_inv (total_slides sc) (fst (run_command render save_ok c w)).
Proof.
  intros Hsc Hinv. pose proof Hinv as (_ & Hcur & Hprev & Ho & Hr).
  destruct c; unfold run_command, next_slide, prev_slide, preview_next, preview_prev,
    preview_restore_last, preview_set_next, preview_set_prev, preview_remember,
    preview_goto_remembered, set_preview_clamped; py_simpl; rewrite Hsc;
    repeat (case_match; simpl in * ); zbools; try exact Hinv.
  all: inv_solve.
Qed.










(** From a window without a cache or with an open one, [_load_pdf]
    installs the new cache and runs the rest of its [try] block on that
    window. *)
Lemma load_pdf_unfold (fitz_open : string -> option pdf) (notes_for_pdf : string -> notes_file)
    (path_parent : string -> string) (interpolate : gmap string string -> string -> option string)
    (path : string) (restore : bool) (sc : SlideCache pixmap) (w : PresenterWindow pixmap) :
  (forall sc0, slide_cache w = Some sc0 -> doc_closed sc0 = false) ->
  @SlideCache_init pixmap fitz_open path = Some sc ->
  load_pdf render save_ok fitz_open notes_for_pdf path_parent interpolate path restore w =
  py_try
    (config_set "last_directory" (path_parent path);;
     config_set "last_file" path;;
     notes ← notes_of_file (notes_for_pdf path);
     py_modify (set_notes_loader (Some notes));;
     cur ← restored_slide interpolate sc restore;
     py_modify (load_reset sc cur);;
     if restore then py_pass else update_slides render save_ok)
    (py_modify (fun w => set_error_dialogs ("Failed to load PDF" :: error_dialogs w) w))
    (set_slide_cache (Some sc) w).
Proof.
  intros Hsc Hi. unfold load_pdf, py_try. py_simpl.
  destruct (slide_cache w) as [sc0|] eqn:E.
  - unfold on_cache, close. rewrite E, (Hsc sc0 eq_refl). simpl. rewrite Hi. py_simpl. reflexivity.
  - rewrite Hi. py_simpl. reflexivity.
Qed.

Lemma config_set_ok (key value : string) (w : PresenterWindow pixmap) :
  ConfigText.before_set_ok value = true ->
  config_set key value w = (set_config_session (<[key := value]> (config_session w)) w, Ok tt).
Proof. intros H. unfold config_set. by rewrite H. Qed.

(** The refresh raises at [get_slide(current_slide)] when that index is
    not a page of the open document and not cached. *)
Lemma update_slides_bad_current (w : PresenterWindow pixmap) (sc : SlideCache pixmap) :
  slide_cache w = Some sc -> doc_closed sc = false ->
  cache sc !! current_slide w = None -> (current_slide w <? page_count (doc sc)) = false ->
  update_slides render save_ok w = (set_slide_cache (Some sc) w, Exc).
Proof.
  intros Hsc Hopen Hc Hn. unfold update_slides, on_cache, get_slide, doc_getitem. py_simpl.
  rewrite Hsc. simpl. rewrite Hsc, Hc, Hopen. simpl.
  rewrite Hn. reflexivity.
Qed.





(** C5: with a document loaded, each command whose guard is false
    returns normally (no exception) and leaves the whole window,
    navigation fields included, unchanged. *)
Theorem violated_preconditions_noop (w : PresenterWindow pixmap) (sc : SlideCache pixmap) :
  slide_cache w = Some sc ->
  (current_slide w = 0 -> run_command render save_ok Retreat w = (w, Ok tt)) /\
  (total_slides sc <= preview_slide w -> run_command render save_ok Advance w = (w, Ok tt)) /\
  (total_slides sc - 1 <= preview_slide w ->
     run_command render save_ok PreviewStepForward w = (w, Ok tt)) /\
  (preview_slide w = 0 -> run_command render save_ok PreviewStepBackward w = (w, Ok tt)) /\
  (last_preview_before_updown w = None -> run_command render save_ok PreviewRestore w = (w, Ok tt)) /\
  (remembered_preview w = None -> run_command render save_ok Recall w = (w, Ok tt)).
Proof.
  intros Hsc. simpl. unfold prev_slide, next_slide, preview_next, preview_prev,
    preview_restore_last, preview_goto_remembered. py_simpl. rewrite Hsc.
  repeat split; intros Hc.
  - by rewrite Hc.
  - by rewrite (proj2 (Z.ltb_ge _ _) Hc).
  - by rewrite (proj2 (Z.ltb_ge _ _) Hc).
  - by rewrite Hc.
  - by rewrite Hc.
  - by rewrite Hc.
Qed.

Lemma preview_prev_step (w : PresenterWindow pixmap) (sc : SlideCache pixmap) :
  slide_cache w = Some sc -> 0 < preview_slide w ->
  nav_eq (set_preview_slide (preview_slide w - 1) w) (fst (preview_prev render save_ok w)).
Proof.
  intros Hsc Hp. unfold preview_prev. py_simpl. rewrite Hsc.
  rewrite (proj2 (Z.gtb_lt _ _) Hp). apply update_slides_preserves.
Qed.

Ltac step_back w sc Hsc :=
  let c := fresh "c" in let p := fresh "p" in let o := fresh "o" in
  let u := fresh "u" in let r := fresh "r" in let s := fresh "s" in
  let sc' := fresh "sc" in let Hsc' := fresh "Hsc" in let Ht := fresh "Ht" in
  destruct (preview_prev_step w sc Hsc ltac:(lia)) as (c & p & o & u & r & s);
  cbn [current_slide preview_slide last_preview_before_updown last_preview_used
       remembered_preview set_preview_slide] in c, p, o, u, r;
  destruct (s sc Hsc) as (sc' & Hsc' & Ht); clear s.

(** C2 (amended): no command but advance ever changes the jump origin
    [last_preview_before_updown]; in particular the backward preview
    step, which steers the preview away from [current + 1], does not
    record it.  Advance from an unset origin records [current] when
    [preview <> current + 1], except that it clears it again when
    [last_preview_used] is set and [preview = current].  So from
    [current = 5, preview = 6] with both optional slots unset, three
    backward preview steps give [preview = 3] and leave the origin unset,
    the restore that follows does nothing, and the advance then records
    the origin 5 and moves to [current = 3, preview = 4]. *)
Theorem jump_origin_scenario (w : PresenterWindow pixmap) (sc : SlideCache pixmap) :
  slide_cache w = Some sc -> 7 <= total_slides sc ->
  current_slide w = 5 -> preview_slide w = 6 ->
  last_preview_before_updown w = None -> remembered_preview w = None ->
  (forall (c : command) (v : PresenterWindow pixmap), c <> Advance ->
     last_preview_before_updown (fst (run_command render save_ok c v)) =
     last_preview_before_updown v) /\
  (forall (v : PresenterWindow pixmap) (scv : SlideCache pixmap),
     slide_cache v = Some scv -> preview_slide v < total_slides scv ->
     last_preview_before_updown v = None ->
     last_preview_before_updown (fst (run_command render save_ok Advance v)) =
     if (preview_slide v =? current_slide v + 1) ||
        (last_preview_used v && (preview_slide v =? current_slide v))
     then None else Some (current_slide v)) /\
  let w3 := fst (run_command render save_ok PreviewStepBackward
                   (fst (run_command render save_ok PreviewStepBackward
                           (fst (run_command render save_ok PreviewStepBackward w))))) in
  let w4 := fst (run_command render save_ok PreviewRestore w3) in
  let w5 := fst (run_command render save_ok Advance w4) in
  (current_slide w3 = 5 /\ preview_slide w3 = 3 /\ last_preview_before_updown w3 = None) /\
  w4 = w3 /\
  (current_slide w5 = 3 /\ preview_slide w5 = 4 /\
   last_preview_before_updown w5 = Some 5 /\ last_preview_used w5 = last_preview_used w).
Proof.
  intros Hsc Ht Hc Hp Ho Hr. split; [|split].
  { intros c v Hadv. destruct c; [done| | | | | | | |]; simpl;
      unfold prev_slide, preview_next, preview_prev, preview_restore_last,
        preview_set_next, preview_set_prev, preview_remember, preview_goto_remembered;
      py_simpl; repeat (case_match; simpl in * ); try congruence;
      match goal with |- context [update_slides render save_ok ?W] =>
        destruct (update_slides_fields W) as (_ & _ & -> & _) end;
      unfold set_preview_clamped; repeat (case_match; simpl in * ); simpl; congruence. }
  { intros v scv Hscv Hlt Hov. simpl. unfold next_slide. py_simpl. rewrite Hscv.
    rewrite (proj2 (Z.ltb_lt _ _) Hlt). py_simpl.
    match goal with |- context [update_slides render save_ok ?W] =>
      destruct (update_slides_fields W) as (_ & _ & -> & _) end.
    unfold set_preview_clamped. rewrite Hov.
    destruct (preview_slide v =? current_slide v + 1) eqn:E1,
      (last_preview_used v) eqn:E2, (preview_slide v =? current_slide v) eqn:E3;
      simpl; rewrite ?E2; simpl; zbools; try lia;
      repeat (case_match; simpl in * ); zbools; try reflexivity; try lia; done. }
  simpl.
  step_back w sc Hsc.
  step_back (fst (preview_prev render save_ok w)) sc0 Hsc0.
  step_back (fst (preview_prev render save_ok (fst (preview_prev render save_ok w)))) sc1 Hsc1.
  set (w3 := fst (preview_prev render save_ok (fst (preview_prev render save_ok (fst (preview_prev render save_ok w)))))) in *.
  assert (C3 : current_slide w3 = 5) by congruence.
  assert (P3 : preview_slide w3 = 3) by lia.
  assert (O3 : last_preview_before_updown w3 = None) by congruence.
  assert (U3 : last_preview_used w3 = last_preview_used w) by congruence.
  assert (T3 : 7 <= total_slides sc2) by lia.
  clearbody w3.
  assert (E4 : preview_restore_last render save_ok w3 = (w3, Ok tt)).
  { unfold preview_restore_last. py_simpl. rewrite Hsc2, O3. reflexivity. }
  rewrite E4. simpl.
  split; [done|split; [reflexivity|]].
  unfold next_slide. py_simpl. rewrite Hsc2, P3.
  rewrite (proj2 (Z.ltb_lt 3 (total_slides sc2)) ltac:(lia)). py_simpl.
  match goal with |- context [update_slides render save_ok ?W] =>
    destruct (update_slides_fields W) as (-> & -> & -> & -> & _) end.
  unfold set_preview_clamped. repeat progress (simpl; rewrite ?C3, ?P3, ?O3).
  rewrite <- U3. destruct (last_preview_used w3) eqn:EU; simpl;
    repeat (case_match; simpl in * ); zbools; repeat split; auto; lia.
Qed.

(** C8: on an open document, for a page index in range whose rasterization
    at the tier's dpi succeeds, [get_slide] returns a bitmap; calling it
    again on the resulting cache returns the same bitmap without changing
    the cache (no rasterizer call), and the two calls together make at
    most one rasterizer call. *)
Theorem get_slide_idempotent (sc : SlideCache pixmap) (p : Z) (high_res : bool) :
  doc_closed sc = false -> 0 <= p < page_count (doc sc) ->
  render (doc sc) p (if high_res then fullscreen_dpi sc else dpi sc) <> None ->
  exists sc1 bm,
    get_slide render p high_res sc = (sc1, Ok bm) /\
    get_slide render p high_res sc1 = (sc1, Ok bm) /\
    (length (renders sc1) <= S (length (renders sc)))%nat.
Proof.
  intros Hopen Hp Hr. unfold get_slide. py_simpl.
  destruct ((if high_res then fullscreen_cache sc else cache sc) !! p) as [pm|] eqn:Hc.
  - exists sc, pm. rewrite Hc. auto.
  - unfold doc_getitem, get_pixmap. simpl. rewrite Hopen.
    rewrite (proj2 (Z.ltb_lt p _) (proj2 Hp)), (proj2 (Z.ltb_ge p 0) ltac:(lia)). simpl.
    destruct (render (doc sc) p _) as [bm|] eqn:Hb; [|done].
    eexists _, bm. split; [reflexivity|]. simpl.
    destruct high_res; simpl; rewrite lookup_insert_eq; simpl; auto.
Qed.

(** C4 (amended): when opening the new document fails while an open
    document is loaded, [_load_pdf] returns normally and shows the
    "Failed to load PDF" dialog; the previous cache has already been
    closed (document closed, both bitmap caches emptied) and stays
    installed, so every later [get_slide] on it raises; the navigation
    fields are unchanged. *)
Theorem load_failure_closes_previous (fitz_open : string -> option pdf)
    (notes_for_pdf : string -> notes_file)
    (path_parent : string -> string) (interpolate : gmap string string -> string -> option string) (path : string) (restore : bool)
    (w : PresenterWindow pixmap) (sc : SlideCache pixmap) :
  slide_cache w = Some sc -> doc_closed sc = false -> fitz_open path = None ->
  let w' := fst (load_pdf render save_ok fitz_open notes_for_pdf path_parent interpolate path restore w) in
  snd (load_pdf render save_ok fitz_open notes_for_pdf path_parent interpolate path restore w) = Ok tt /\
  error_dialogs w' = "Failed to load PDF" :: error_dialogs w /\
  current_slide w' = current_slide w /\ preview_slide w' = preview_slide w /\
  last_preview_before_updown w' = last_preview_before_updown w /\
  last_preview_used w' = last_preview_used w /\
  remembered_preview w' = remembered_preview w /\
  exists sc', slide_cache w' = Some sc' /\ doc sc' = doc sc /\ doc_closed sc' = true /\
    cache sc' = ∅ /\ fullscreen_cache sc' = ∅ /\
    (forall p high_res, snd (get_slide render p high_res sc') = Exc).
Proof.
  intros Hsc Hopen Hfail w'. subst w'. unfold load_pdf, py_try, SlideCache_init. py_simpl.
  unfold on_cache, close. destruct w; simpl in Hsc; subst. simpl.
  rewrite Hopen. simpl. rewrite Hfail. py_simpl.
  repeat split. eexists. repeat split.
  intros p high_res. unfold get_slide, doc_getitem. py_simpl.
  destruct high_res; simpl; reflexivity.
Qed.

(** C10 (amended): when the two [config.set] calls accept their values
    (no stray ['%']) and the notes file raises no [OSError], loading a
    document of zero pages without restoring sets [current_slide = 0] and
    [preview_slide = -1] with the new cache installed, then the first
    [get_slide(0)] of the refresh raises, so [_load_pdf] ends in its
    handler and shows "Failed to load PDF". *)
Theorem load_zero_pages (fitz_open : string -> option pdf)
    (notes_for_pdf : string -> notes_file)
    (path_parent : string -> string) (interpolate : gmap string string -> string -> option string) (path : string) (d : pdf)
    (w : PresenterWindow pixmap) :
  fitz_open path = Some d -> page_count d = 0 ->
  (forall sc, slide_cache w = Some sc -> doc_closed sc = false) ->
  ConfigText.before_set_ok (path_parent path) = true ->
  ConfigText.before_set_ok path = true ->
  notes_for_pdf path <> FileError ->
  let w' := fst (load_pdf render save_ok fitz_open notes_for_pdf path_parent interpolate path false w) in
  snd (load_pdf render save_ok fitz_open notes_for_pdf path_parent interpolate path false w) = Ok tt /\
  current_slide w' = 0 /\ preview_slide w' = -1 /\
  (exists sc', slide_cache w' = Some sc' /\ doc sc' = d /\ total_slides sc' = 0) /\
  error_dialogs w' = "Failed to load PDF" :: error_dialogs w.
Proof.
  intros Hopen Hpc Hopen0 Hdir Hfile Hnotes w'. subst w'.
  destruct d as [name pc]; simpl in Hpc; subst pc.
  assert (Hi : @SlideCache_init pixmap fitz_open path =
               Some {| doc := {| pdf_name := name; page_count := 0 |}; doc_closed := false;
                       dpi := 150; fullscreen_dpi := 300; cache := ∅; fullscreen_cache := ∅;
                       total_slides := 0; renders := [] |})
    by (unfold SlideCache_init; rewrite Hopen; reflexivity).
  rewrite (load_pdf_unfold fitz_open notes_for_pdf path_parent interpolate path false _ w Hopen0 Hi).
  unfold py_try. py_simpl.
  rewrite (config_set_ok _ _ _ Hdir). cbn beta iota.
  rewrite (config_set_ok _ _ _ Hfile). cbn beta iota.
  destruct (notes_for_pdf path) as [| |t]; [|done|]; unfold notes_of_file; py_simpl;
    (erewrite update_slides_bad_current;
     [|reflexivity|reflexivity|apply lookup_empty|reflexivity]);
    cbn beta iota; repeat split; try reflexivity; by eexists.
Qed.

End Nav.

End PresenterProofs.


(* ------------------------------------------------------------------ *)
(** ** The notes parser: splitting, stripping and marker-free text *)

Module NotesSplitProofs.

Import Notes.
Local Open Scope string_scope.

Lemma str_app_cons (c : Ascii.ascii) (s t : string) : String c s +:+ t = String c (s +:+ t).
Proof. reflexivity. Qed.

Lemma str_app_nil_l (t : string) : "" +:+ t = t.
Proof. reflexivity. Qed.

Lemma str_app_nil_r (s : string) : s +:+ "" = s.
Proof. induction s as [|c s IH]; [done|]. by rewrite str_app_cons, IH. Qed.

Lemma str_app_assoc (a b c : string) : a +:+ (b +:+ c) = (a +:+ b) +:+ c.
Proof. induction a as [|x a IH]; [done|]. by rewrite !str_app_cons, IH. Qed.

Lemma str_rev_app (s t : string) : String.rev_app s t = String.rev s +:+ t.
Proof.
  revert t. induction s as [|c s IH]; intros t; [done|].
  unfold String.rev. simpl. rewrite (IH (String c t)), (IH (String c "")).
  by rewrite <- str_app_assoc.
Qed.

Lemma str_rev_cons (c : Ascii.ascii) (s : string) :
  String.rev (String c s) = String.rev s +:+ String c "".
Proof. unfold String.rev at 1. simpl. apply str_rev_app. Qed.

Lemma str_rev_append (a b : string) : String.rev (a +:+ b) = String.rev b +:+ String.rev a.
Proof.
  induction a as [|c a IH].
  - rewrite str_app_nil_l. unfold String.rev at 3. simpl. by rewrite str_app_nil_r.
  - rewrite str_app_cons, !str_rev_cons, IH. by rewrite str_app_assoc.
Qed.

Lemma str_rev_rev (s : string) : String.rev (String.rev s) = s.
Proof.
  induction s as [|c s IH]; [done|].
  rewrite str_rev_cons, str_rev_append, IH. done.
Qed.

Lemma str_length_app (a b : string) : String.length (a +:+ b) = (String.length a + String.length b)%nat.
Proof. induction a as [|c a IH]; [done|]. rewrite str_app_cons. simpl. by rewrite IH. Qed.

Lemma substring_prefix (p t : string) : String.substring 0 (String.length p) (p +:+ t) = p.
Proof.
  induction p as [|c p IH]; [by destruct t|]. rewrite str_app_cons. simpl. by rewrite IH.
Qed.

Lemma take_digits_suffix (s : string) (acc : Z) (n : nat) v k r :
  take_digits s acc n = (v, k, r) -> exists p, s = p +:+ r.
Proof.
  revert acc n. induction s as [|c s IH]; intros acc n H; simpl in H.
  - simplify_eq. by exists "".
  - destruct (is_digit c).
    + destruct (IH _ _ H) as [p ->]. by exists (String c p).
    + simplify_eq. by exists "".
Qed.

Lemma numbered_prefix_suffix (s : string) v r :
  numbered_prefix s = Some (v, r) -> exists p, s = p +:+ r.
Proof.
  unfold numbered_prefix. intros H. repeat (case_match; simplify_eq; try done).
  all: match goal with
    | E : take_digits ?x _ _ = _ |- _ =>
        destruct (take_digits_suffix _ _ _ _ _ _ E) as [p Hp]; subst
    end.
  all: eexists (String _ (String _ (p +:+ String _ (String _ ""))));
    rewrite !str_app_cons, <- str_app_assoc; reflexivity.
Qed.

Lemma marker_prefix_app (s m r : string) : marker_prefix s = Some (m, r) -> m +:+ r = s.
Proof.
  unfold marker_prefix. intros H. repeat (case_match; simplify_eq; try done).
  all: match goal with
    | E : numbered_prefix ?x = Some (_, ?r) |- _ =>
        destruct (numbered_prefix_suffix _ _ _ E) as [p Hp]; rewrite Hp, str_length_app,
          Nat.add_sub, substring_prefix; reflexivity
    end.
Qed.

Lemma str_concat_cons (x : string) (l : list string) :
  String.concat "" (x :: l) = x +:+ String.concat "" l.
Proof. destruct l; simpl; [by rewrite str_app_nil_r|done]. Qed.

Lemma split_go_concat (fuel : nat) (s cur : string) :
  String.concat "" (split_go fuel s cur) = String.rev cur +:+ s.
Proof.
  revert s cur. induction fuel as [|fuel IH]; intros s cur; simpl; [done|].
  destruct s as [|c s'].
  - simpl. by rewrite str_app_nil_r.
  - destruct (marker_prefix (String c s')) as [[m r]|] eqn:E.
    + rewrite !str_concat_cons, IH. apply marker_prefix_app in E.
      rewrite str_app_nil_l, E. done.
    + rewrite IH, str_rev_cons, <- str_app_assoc. done.
Qed.

(** X11: the pieces of the marker split, joined, give back the text. *)
Theorem re_split_join (content : string) : String.concat "" (re_split content) = content.
Proof. unfold re_split. by rewrite split_go_concat. Qed.

Lemma head_not_dash (c : Ascii.ascii) (t : string) :
  c <> "-"%char -> marker_prefix (String c t) = None /\ numbered_prefix (String c t) = None.
Proof.
  intros Hc. destruct c as [[] [] [] [] [] [] [] []];
    solve [split; reflexivity | exfalso; apply Hc; reflexivity].
Qed.

Lemma list_ascii_app (a b : string) :
  String.list_ascii_of_string (a +:+ b) = (String.list_ascii_of_string a ++ String.list_ascii_of_string b)%list.
Proof. induction a as [|c a IH]; [done|]. rewrite str_app_cons. simpl. by rewrite IH. Qed.

Lemma split_go_nodash (fuel : nat) (s cur : string) :
  (forall c, In c (String.list_ascii_of_string s) -> c <> "-"%char) ->
  (String.length s < fuel)%nat ->
  split_go fuel s cur = [String.rev cur +:+ s].
Proof.
  revert fuel cur. induction s as [|c s IH]; intros fuel cur Hs Hf;
    destruct fuel as [|fuel]; simpl in Hf; try lia; cbn [split_go].
  - by rewrite str_app_nil_r.
  - destruct (head_not_dash c s) as [-> _]; [apply Hs; left; done|].
    rewrite IH; [|intros x Hx; apply Hs; right; done|lia].
    by rewrite str_rev_cons, <- str_app_assoc.
Qed.

Lemma lstrip_prefix (s : string) : exists p, s = p +:+ lstrip s.
Proof.
  induction s as [|c s IH]; simpl; [by exists ""|].
  destruct (is_space c); [|by exists ""].
  destruct IH as [p Hp]. exists (String c p). rewrite str_app_cons. congruence.
Qed.

Lemma rstrip_prefix (s : string) : exists q, s = rstrip s +:+ q.
Proof.
  destruct (lstrip_prefix (String.rev s)) as [p Hp]. exists (String.rev p).
  unfold rstrip. rewrite <- str_rev_append, <- Hp. by rewrite str_rev_rev.
Qed.

Lemma strip_infix (s : string) : exists p q, s = p +:+ (strip s +:+ q).
Proof.
  destruct (lstrip_prefix s) as [p Hp]. destruct (rstrip_prefix (lstrip s)) as [q Hq].
  exists p, q. unfold strip. rewrite <- Hq. exact Hp.
Qed.

Lemma strip_chars (s : string) (c : Ascii.ascii) :
  In c (String.list_ascii_of_string (strip s)) -> In c (String.list_ascii_of_string s).
Proof.
  destruct (strip_infix s) as (p & q & Hs). intros H.
  rewrite Hs, !list_ascii_app. apply in_or_app. right. apply in_or_app. by left.
Qed.

Lemma strip_length (s : string) : (String.length (strip s) <= String.length s)%nat.
Proof.
  destruct (strip_infix s) as (p & q & Hs). rewrite Hs at 2. rewrite !str_length_app. lia.
Qed.

(** X12: a notes text without a dash is one note for slide 0, its
    stripped text, or no note when it is blank. *)
Theorem notes_without_dashes (content : string) :
  (forall c, In c (String.list_ascii_of_string content) -> c <> "-"%char) ->
  parse_notes content =
    if String.eqb (strip content) "" then ∅ else {[0 := strip content]}.
Proof.
  intros Hnd. unfold parse_notes, re_split.
  rewrite split_go_nodash; [|done|lia].
  change (String.rev "" +:+ content) with content. cbn [parse_parts].
  destruct (String.eqb (strip content) "") eqn:E; [done|].
  assert (Hs : forall c, In c (String.list_ascii_of_string (strip content)) -> c <> "-"%char)
    by (intros c Hc; by apply Hnd, strip_chars).
  destruct (strip content) as [|c t]; [done|].
  assert (Hc : c <> "-"%char) by (apply Hs; by left).
  destruct (String.eqb (String c t) "---") eqn:E3.
  { apply String.eqb_eq in E3. simplify_eq. }
  unfold numbered_marker. destruct (head_not_dash c t Hc) as [_ ->].
  by rewrite insert_empty.
Qed.

Lemma lstrip_starts (s : string) : starts_nonspace (lstrip s).
Proof.
  induction s as [|c s IH]; simpl; [done|].
  destruct (is_space c) eqn:E; [done|]. simpl. done.
Qed.

Lemma lstrip_id (s : string) : starts_nonspace s -> lstrip s = s.
Proof. destruct s as [|c s]; simpl; [done|]. by intros ->. Qed.

Lemma strip_idem (s : string) : strip (strip s) = strip s.
Proof.
  unfold strip. set (t := lstrip s).
  assert (Ht : starts_nonspace t) by apply lstrip_starts.
  assert (Hl : lstrip (rstrip t) = rstrip t).
  { destruct (rstrip_prefix t) as [q Hq]. apply lstrip_id.
    destruct (rstrip t) as [|c u]; simpl; [done|].
    rewrite Hq in Ht. exact Ht. }
  rewrite Hl. unfold rstrip. rewrite str_rev_rev.
  by rewrite (lstrip_id (lstrip (String.rev t))) by apply lstrip_starts.
Qed.

Lemma parse_parts_values (parts : list string) (c : Z) (m : gmap Z string) :
  (forall k v, m !! k = Some v -> v <> "" /\ strip v = v) ->
  forall k v, parse_parts c m parts !! k = Some v -> v <> "" /\ strip v = v.
Proof.
  revert c m. induction parts as [|p parts IH]; intros c m Hm; simpl; [done|].
  repeat case_match; apply IH; try done.
  intros k v Hk. destruct (decide (k = c)) as [->|Hne].
  - rewrite lookup_insert_eq in Hk. simplify_eq. split.
    + intros Hv. rewrite Hv in *. simpl in *. discriminate.
    + apply strip_idem.
  - rewrite lookup_insert_ne in Hk by congruence. by apply (Hm k).
Qed.

(** X13: every stored note is non-empty and already stripped. *)
Theorem notes_values_stripped (content : string) (k : Z) (v : string) :
  parse_notes content !! k = Some v -> v <> "" /\ strip v = v.
Proof.
  apply parse_parts_values. intros ?? H. by rewrite lookup_empty in H.
Qed.

End NotesSplitProofs.

(* ------------------------------------------------------------------ *)
(** ** SlideCache.get_slide: errors, negative indices, cache contents *)

Module CacheProofs.

Import PresenterProofs.

Ltac zdec :=
  match goal with
  | |- context [Z.ltb ?a ?b] => destruct (Z.ltb_spec a b); try lia
  | |- context [Z.leb ?a ?b] => destruct (Z.leb_spec a b); try lia
  end.

Section Cache.
Local Open Scope Z_scope.
Context {pixmap : Type} (render : pdf -> Z -> Z -> option pixmap).

(** X8: [get_slide] of a page not in the chosen cache raises, rendering
    nothing and leaving the cache as it was, when the document is closed
    or the index is at least the page count; on an open document without
    pages a negative index never returns. *)
Theorem get_slide_bad_index (sc : SlideCache pixmap) (p : Z) (high_res : bool) :
  (if high_res then fullscreen_cache sc else cache sc) !! p = None ->
  ((doc_closed sc = true \/ page_count (doc sc) <= p) ->
     get_slide render p high_res sc = (sc, Exc)) /\
  (doc_closed sc = false -> page_count (doc sc) = 0 -> p < 0 ->
     get_slide render p high_res sc = (sc, Loops)).
Proof.
  intros Hc. unfold get_slide, doc_getitem. py_simpl. rewrite Hc. split.
  - intros Hbad. destruct (doc_closed sc) eqn:Ecl; [done|].
    destruct Hbad as [Hb|Hb]; [discriminate|].
    rewrite (proj2 (Z.ltb_ge _ _) Hb). reflexivity.
  - intros Hopen Hn Hp. rewrite Hopen, Hn.
    rewrite (proj2 (Z.ltb_lt p 0) Hp). reflexivity.
Qed.

(** X9: the cache is keyed by the index as given: fetching page [-1] and
    then page [n - 1] renders the same page twice and returns the same
    bitmap. *)
Theorem get_slide_negative_index_alias (sc : SlideCache pixmap) (bm : pixmap) :
  doc_closed sc = false -> 1 <= page_count (doc sc) ->
  cache sc !! (-1) = None -> cache sc !! (page_count (doc sc) - 1) = None ->
  render (doc sc) (page_count (doc sc) - 1) (dpi sc) = Some bm ->
  let r1 := get_slide render (-1) false sc in
  let r2 := get_slide render (page_count (doc sc) - 1) false (fst r1) in
  snd r1 = Ok bm /\ snd r2 = Ok bm /\
  renders (fst r2) = (page_count (doc sc) - 1, dpi sc) :: (page_count (doc sc) - 1, dpi sc)
                     :: renders sc.
Proof.
  intros Hopen Hn Hc1 Hc2 Hr r1 r2. subst r1 r2.
  assert (Hm : (-1) mod page_count (doc sc) = page_count (doc sc) - 1).
  { symmetry. apply (Z.mod_unique _ _ (-1)); lia. }
  unfold get_slide, doc_getitem, get_pixmap. py_simpl. rewrite Hc1, Hopen. simpl.
  rewrite (proj2 (Z.ltb_lt (-1) (page_count (doc sc))) ltac:(lia)), (proj2 (Z.eqb_neq (page_count (doc sc)) 0) ltac:(lia)).
  simpl. rewrite Hm, Hr. simpl.
  rewrite lookup_insert_ne by lia. rewrite Hc2, Hopen. simpl.
  rewrite (proj2 (Z.ltb_lt (page_count (doc sc) - 1) (page_count (doc sc))) ltac:(lia)),
    (proj2 (Z.ltb_ge (page_count (doc sc) - 1) 0) ltac:(lia)).
  simpl. rewrite Hr. simpl. auto.
Qed.

(** X10: when the caches hold only renderings of their pages, every bitmap
    [get_slide] returns is the rendering of the page [doc[p]] loads (a
    negative index taken modulo the page count) at the dpi of the tier,
    and the caches keep that property. *)
Theorem get_slide_returns_rendering (sc sc' : SlideCache pixmap) (p : Z) (high_res : bool)
    (pm : pixmap) :
  cache_sound render sc -> get_slide render p high_res sc = (sc', Ok pm) ->
  render (doc sc) (page_index (page_count (doc sc)) p)
         (if high_res then fullscreen_dpi sc else dpi sc) = Some pm /\
  cache_sound render sc'.
Proof.
  intros [Hlo Hhi] Hg. unfold get_slide, doc_getitem, get_pixmap in Hg. py_simpl.
  destruct ((if high_res then fullscreen_cache sc else cache sc) !! p) as [pm0|] eqn:Hc.
  - simplify_eq. split; [|by split]. destruct high_res; auto.
  - destruct (doc_closed sc); [discriminate|].
    destruct (if negb (p <? page_count (doc sc)) then _ else _) as [sc1 [q| |]] eqn:Eq;
      [|discriminate|discriminate].
    assert (q = page_index (page_count (doc sc)) p /\ sc1 = sc) as [-> ->]
      by (revert Eq; unfold page_index; repeat case_match; intros; simplify_eq; auto).
    set (q := page_index (page_count (doc sc)) p) in *.
    simpl in Hg. destruct (render (doc sc) q _) as [pm1|] eqn:Hr; [|discriminate].
    simpl in Hg. simplify_eq. split; [done|].
    unfold store. destruct high_res; split; simpl; intros k pm2 Hk; auto;
      destruct (decide (k = p)) as [->|Hne];
      [rewrite lookup_insert_eq in Hk; simplify_eq; subst q; exact Hr
      |rewrite lookup_insert_ne in Hk by congruence; auto
      |rewrite lookup_insert_eq in Hk; simplify_eq; subst q; exact Hr
      |rewrite lookup_insert_ne in Hk by congruence; auto].
Qed.

End Cache.

End CacheProofs.

(* ------------------------------------------------------------------ *)
(** ** FullScreenWindow: what the audience sees *)

Module AudienceProofs.

Section Audience.
Context {pixmap : Type}.

Lemma fs_apply_consistent (c : fs_call pixmap) (f : FullScreenWindow pixmap) :
  slide_label f = fs_expected_label f ->
  slide_label (fs_apply c f) = fs_expected_label (fs_apply c f).
Proof.
  unfold fs_expected_label.
  destruct f as [b cur ptr lab]; destruct c as [pm|pos| |]; simpl; intros H;
    unfold fs_show_slide, fs_set_pointer_position, fs_unblank, fs_blank, fs_update_display;
    simpl; repeat (case_match; simpl); subst; simpl in *; congruence.
Qed.

(** X1: whatever calls the presenter window makes on a fresh audience
    window ([show_slide], [set_pointer_position], [blank], [unblank]), the
    label shows nothing while blanked or before any slide, and otherwise
    the latest slide, with the pointer drawn exactly when [pointer_pos] is
    truthy: the display is never stale. *)
Theorem fs_label_matches_state (cs : list (fs_call pixmap)) :
  let f := fs_run cs FullScreenWindow_init in
  slide_label f = fs_expected_label f.
Proof.
  unfold fs_run. cbv zeta.
  assert (H0 : slide_label (@FullScreenWindow_init pixmap)
               = fs_expected_label FullScreenWindow_init) by reflexivity.
  revert H0. generalize (@FullScreenWindow_init pixmap).
  induction cs as [|c cs IH]; intros f Hf; simpl; [done|].
  apply IH. by apply fs_apply_consistent.
Qed.

End Audience.

End AudienceProofs.

(* ------------------------------------------------------------------ *)
(** ** PresenterWindow: keys, presenting, session restore, drops *)

Module SessionProofs.

Import PresenterProofs.
Local Open Scope string_scope.

Section Keys.
Local Open Scope Z_scope.
Context {pixmap : Type} (render : pdf -> Z -> Z -> option pixmap) (save_ok : bool) (screens : nat).

Lemma keeps_state_bind {A B} (T : Z) (m : PyM (PresenterState pixmap) A)
    (k : A -> PyM (PresenterState pixmap) B) :
  keeps_nav_inv T m -> (forall a, keeps_nav_inv T (k a)) -> keeps_nav_inv T (m ≫= k).
Proof.
  intros Hm Hk s Hs. unfold mbind, PyM_bind.
  specialize (Hm s Hs). destruct (m s) as [s1 [a| |]]; simpl in *; [by apply Hk|done|done].
Qed.

Lemma keeps_get (T : Z) : keeps_nav_inv (pixmap:=pixmap) T py_get.
Proof. intros s Hs. exact Hs. Qed.

Lemma keeps_pass (T : Z) : keeps_nav_inv (pixmap:=pixmap) T py_pass.
Proof. intros s Hs. exact Hs. Qed.

Lemma keeps_raise {A} (T : Z) : keeps_nav_inv (pixmap:=pixmap) (A:=A) T py_raise.
Proof. intros s Hs. exact Hs. Qed.

Lemma keeps_on_window {A} (T : Z) (m : PyM (PresenterWindow pixmap) A) :
  preserves_nav m -> keeps_nav_inv T (on_window m).
Proof.
  intros Hm s Hs. unfold on_window. specialize (Hm (window s)).
  destruct (m (window s)) as [w' r] eqn:E; simpl in *.
  eapply nav_inv_transfer; [exact Hs|]. exact Hm.
Qed.

Lemma keeps_command (T : Z) (c : command) :
  keeps_nav_inv T (on_window (run_command render save_ok c)).
Proof.
  intros s Hs. unfold on_window.
  destruct Hs as [(sc & Hsc & HT) Hrest] eqn:EHs.
  pose proof (command_inv render save_ok c (window s) sc Hsc) as Hc. subst T.
  specialize (Hc Hs).
  destruct (run_command render save_ok c (window s)) as [w' r]; exact Hc.
Qed.

Lemma keeps_set_presenting (T : Z) (b bl : bool) :
  keeps_nav_inv (pixmap:=pixmap) T
    (py_modify (fun s => {| window := set_is_presenting b (window s); blanked := bl |})).
Proof.
  intros s Hs. py_simpl. eapply nav_inv_transfer; [exact Hs|]. repeat split; simpl; eauto.
Qed.

Lemma keeps_get_slide (T : Z) (p : Z) (hr : bool) :
  keeps_nav_inv T (on_window (on_cache (get_slide render p hr))).
Proof. apply keeps_on_window, on_cache_get_slide. Qed.

Lemma keeps_flip_blanked (T : Z) :
  keeps_nav_inv (pixmap:=pixmap) T
    (py_modify (fun s => {| window := window s; blanked := negb (blanked s) |})).
Proof. intros s Hs. exact Hs. Qed.

Lemma keeps_update_slides (T : Z) : keeps_nav_inv T (on_window (update_slides render save_ok)).
Proof. apply keeps_on_window, update_slides_preserves. Qed.

Ltac keeps :=
  repeat first
    [ apply keeps_state_bind; [|intros ?]
    | apply keeps_get | apply keeps_pass | apply keeps_raise
    | apply keeps_get_slide | apply keeps_set_presenting | apply keeps_flip_blanked
    | apply keeps_update_slides
    | progress case_match ].

Lemma keeps_start_presentation (T : Z) :
  keeps_nav_inv T (start_presentation render screens).
Proof. unfold start_presentation. destruct screens; keeps. Qed.

Lemma keeps_key_event (T : Z) (e : key_event) :
  keeps_nav_inv T (run_key_event render save_ok screens e).
Proof.
  destruct e as [k shift|k]; [destruct k|destruct k]; simpl;
    try apply (keeps_command T Advance);
    try apply (keeps_command T Retreat);
    try apply (keeps_command T PreviewStepBackward);
    try apply (keeps_command T PreviewStepForward);
    try apply (keeps_command T PreviewRestore);
    try apply (keeps_command T PreviewSetToNext);
    try apply (keeps_command T PreviewSetToPrev);
    try apply (keeps_command T Remember);
    try apply (keeps_command T Recall);
    try apply keeps_pass.
  - unfold toggle_blank. keeps.
  - destruct shift.
    + unfold start_from_current. keeps. apply keeps_start_presentation.
    + unfold start_from_beginning. keeps.
      all: try apply keeps_start_presentation.
      all:
        intros s0 Hs0; unfold on_window; py_simpl; unfold nav_inv in *; simpl in *;
        destruct Hs0 as (Hc & Hcur & Hpre & Ho & Hr); split; [exact Hc|]; repeat split; try lia; auto;
        repeat match goal with H : _ = Some ?z, Hf : forall _, _ = Some _ -> _ |- _ => pose proof (Hf z H); clear H end; lia.
  - unfold toggle_blank. keeps.
Qed.

(** X2: from a window whose indices are in range for a document of [T]
    slides, any sequence of key presses on either window (navigation, F5,
    Shift+F5, Escape, B), including ones that raise, keeps
    [0 <= current < T], [0 <= preview <= T] and the ranges of the saved
    jump origin and remembered preview. *)
Theorem key_events_keep_ranges (T : Z) (es : list key_event) (s : PresenterState pixmap) :
  nav_inv T (window s) ->
  Forall (fun s' => nav_inv T (window s')) (run_key_events render save_ok screens es s).
Proof.
  revert s. induction es as [|e es IH]; intros s Hs; simpl; [constructor|].
  pose proof (keeps_key_event T e s Hs) as He.
  destruct (run_key_event render save_ok screens e s) as [s' [u| |]]; simpl in *;
    try constructor; auto.
Qed.


End Keys.

Section Start.
Local Open Scope Z_scope.
Context {pixmap : Type} (render : pdf -> Z -> Z -> option pixmap) (save_ok : bool) (screens : nat).

Lemma update_slides_keeps_presenting (w : PresenterWindow pixmap) :
  is_presenting (fst (update_slides render save_ok w)) = is_presenting w.
Proof.
  destruct (update_slides_window render save_ok w) as ((_ & H & _) & _). exact H.
Qed.

Lemma start_presentation_nav (s : PresenterState pixmap) :
  nav_eq (window s) (window (fst (start_presentation render screens s))).
Proof.
  unfold start_presentation. destruct screens; py_simpl; [apply nav_eq_refl|].
  unfold on_window.
  pose proof (on_cache_get_slide render (current_slide (window s)) true (window s)) as Hn.
  destruct (on_cache _ (window s)) as [w' [r| |]]; simpl in *; [|exact Hn|exact Hn].
  eapply nav_eq_trans; [exact Hn|]. repeat split; simpl; eauto.
Qed.

(** X3: F5 with a document loaded leaves [current = 0] and [preview = 1]
    whether or not presenting then fails, and keeps the jump origin and the
    remembered preview. *)
Theorem f5_restarts_from_first_slide (s : PresenterState pixmap) (sc : SlideCache pixmap) :
  slide_cache (window s) = Some sc ->
  let s' := fst (key_press_event render save_ok screens Key_F5 false s) in
  current_slide (window s') = 0 /\ preview_slide (window s') = 1 /\
  last_preview_before_updown (window s') = last_preview_before_updown (window s) /\
  last_preview_used (window s') = last_preview_used (window s) /\
  remembered_preview (window s') = remembered_preview (window s).
Proof.
  intros Hsc s'. subst s'. simpl. unfold start_from_beginning, on_window. py_simpl.
  rewrite Hsc. simpl.
  set (w1 := set_preview_slide 1 (set_current_slide 0 (window s))).
  pose proof (update_slides_fields render save_ok w1) as Hf. simpl in Hf.
  destruct (update_slides render save_ok w1) as [w2 [u| |]] eqn:E; simpl in *.
  - pose proof (start_presentation_nav {| window := w2; blanked := blanked s |}) as Hn.
    destruct Hn as (Hc & Hp & Ho & Hu & Hr & _). simpl in *.
    destruct Hf as (Hc' & Hp' & Ho' & Hu' & Hr').
    repeat split; congruence.
  - destruct Hf as (Hc' & Hp' & Ho' & Hu' & Hr'). subst w1. simpl in *. auto.
  - destruct Hf as (Hc' & Hp' & Ho' & Hu' & Hr'). subst w1. simpl in *. auto.
Qed.

(** X4: with no screen, F5 and Shift+F5 with a document loaded raise
    ([screens[0]]) and start no presentation: [is_presenting] and
    [is_blanked] are unchanged. *)
Theorem no_screen_presentation_raises (s : PresenterState pixmap) (sc : SlideCache pixmap)
    (shift : bool) :
  screens = O -> slide_cache (window s) = Some sc ->
  let r := key_press_event render save_ok screens Key_F5 shift s in
  snd r = Exc /\ is_presenting (window (fst r)) = is_presenting (window s) /\
  blanked (fst r) = blanked s.
Proof.
  intros H0 Hsc r. subst r. simpl.
  unfold start_from_current, start_from_beginning, start_presentation, on_window.
  rewrite H0. destruct shift; py_simpl; rewrite Hsc; simpl; [auto|].
  pose proof (update_slides_keeps_presenting
                (set_preview_slide 1 (set_current_slide 0 (window s)))) as Hp.
  pose proof (update_slides_no_loop render save_ok
                (set_preview_slide 1 (set_current_slide 0 (window s)))) as Hl.
  destruct (update_slides render save_ok _) as [w2 [u| |]]; simpl in *; auto.
  exfalso. apply Hl; [lia|lia|reflexivity].
Qed.

End Start.

(** [str(n)] for [n >= 0] reads back through [int()]. *)

Lemma digit_char_facts (c : Ascii.ascii) :
  Notes.is_digit c = true -> Notes.is_space c = false /\ Ascii.eqb c "%" = false.
Proof. destruct c as [[] [] [] [] [] [] [] []]; vm_compute; intros; split; congruence. Qed.

Lemma all_digits_app (a b : string) : all_digits (a +:+ b) = all_digits a && all_digits b.
Proof. induction a as [|c a IH]; simpl; [done|]. by rewrite IH, andb_assoc. Qed.

Lemma all_digits_rev (s : string) : all_digits (String.rev s) = all_digits s.
Proof.
  induction s as [|c s IH]; [done|].
  rewrite NotesSplitProofs.str_rev_cons, all_digits_app, IH. simpl.
  by rewrite andb_true_r, andb_comm.
Qed.

Lemma all_digits_nonspace (s : string) : all_digits s = true -> starts_nonspace s.
Proof.
  destruct s as [|c s]; simpl; [done|]. intros H. apply andb_true_iff in H as [H _].
  apply (digit_char_facts c H).
Qed.

Lemma strip_all_digits (s : string) : all_digits s = true -> Notes.strip s = s.
Proof.
  intros H. unfold Notes.strip, Notes.rstrip.
  rewrite (NotesSplitProofs.lstrip_id s) by (by apply all_digits_nonspace).
  rewrite (NotesSplitProofs.lstrip_id (String.rev s))
    by (apply all_digits_nonspace; by rewrite all_digits_rev).
  apply NotesSplitProofs.str_rev_rev.
Qed.

Lemma has_percent_all_digits (s : string) : all_digits s = true -> ConfigText.has_percent s = false.
Proof.
  induction s as [|c s IH]; simpl; [done|]. intros H. apply andb_true_iff in H as [Hc Hs].
  by rewrite (proj2 (digit_char_facts c Hc)), IH.
Qed.

Lemma all_digits_uint (l : Decimal.uint) : all_digits (ConfigText.string_of_uint l) = true.
Proof. induction l; simpl; auto. Qed.

Lemma int_digits_uint (l : Decimal.uint) (acc : Z) :
  ConfigText.int_digits (ConfigText.string_of_uint l) acc true = Some (uint_val l acc).
Proof. revert acc. induction l; intros acc; simpl; auto. Qed.

Lemma uint_val_pos (l : Decimal.uint) (a : positive) :
  uint_val l (Zpos a) = Zpos (Pos.of_uint_acc l a).
Proof.
  revert a. induction l; intros a; cbn [uint_val Pos.of_uint_acc]; [reflexivity|..];
    rewrite <- IHl; f_equal; lia.
Qed.

Lemma uint_val_zero (l : Decimal.uint) : uint_val l 0 = Z.of_N (Pos.of_uint l).
Proof.
  induction l; cbn [uint_val Pos.of_uint Z.of_N]; [reflexivity|exact IHl|..];
    rewrite <- uint_val_pos; reflexivity.
Qed.

Lemma py_int_str_of_Z (n : Z) : 0 <= n -> ConfigText.py_int (ConfigText.str_of_Z n) = Some n.
Proof.
  intros Hn. destruct n as [|p|p]; [reflexivity| |lia].
  unfold ConfigText.py_int, ConfigText.str_of_Z.
  rewrite strip_all_digits by apply all_digits_uint.
  pose proof (DecimalPos.Unsigned.of_to p) as Ho.
  pose proof (DecimalPos.Unsigned.to_uint_nonnil p) as Hnn.
  destruct (Pos.to_uint p) as [|l|l|l|l|l|l|l|l|l|l]; [done|..];
    simpl in Ho |- *; rewrite int_digits_uint; f_equal;
    match goal with |- uint_val _ ?a = _ => let v := eval vm_compute in a in change a with v end;
    first [rewrite uint_val_zero, Ho; reflexivity | rewrite uint_val_pos; congruence].
Qed.

Lemma has_percent_str_of_Z (n : Z) : 0 <= n -> ConfigText.has_percent (ConfigText.str_of_Z n) = false.
Proof.
  intros Hn. destruct n as [|p|p]; [reflexivity| |lia].
  apply has_percent_all_digits, all_digits_uint.
Qed.

Section Loading.
Local Open Scope Z_scope.
Context {pixmap : Type} (render : pdf -> Z -> Z -> option pixmap) (save_ok : bool)
  (fitz_open : string -> option pdf) (notes_for_pdf : string -> notes_file)
  (path_parent : string -> string) (interpolate : gmap string string -> string -> option string)
  (path_exists : string -> bool).

Lemma set_slide_cache_same (w : PresenterWindow pixmap) (sc : SlideCache pixmap) :
  slide_cache w = Some sc -> set_slide_cache (Some sc) w = w.
Proof. destruct w; simpl; intros ->; reflexivity. Qed.

Lemma last_session_load (w : PresenterWindow pixmap) (f : string) (d : pdf) (l : Z) :
  config_session w !! "last_file" = Some f -> ConfigText.has_percent f = false ->
  f <> ""%string -> path_exists f = true -> fitz_open f = Some d ->
  (forall sc, slide_cache w = Some sc -> doc_closed sc = false) ->
  ConfigText.before_set_ok (path_parent f) = true -> ConfigText.before_set_ok f = true ->
  notes_for_pdf f <> FileError ->
  ConfigText.has_percent (default "0" (config_session w !! "last_slide")) = false ->
  ConfigText.py_int (default "0" (config_session w !! "last_slide")) = Some l ->
  let r := load_last_session render save_ok fitz_open notes_for_pdf path_parent interpolate
             path_exists w in
  let cur := if (0 <=? l) && (l <? page_count d) then l else 0 in
  snd r = Ok tt /\ error_dialogs (fst r) = error_dialogs w /\
  current_slide (fst r) = cur /\
  preview_slide (fst r) = Z.min (cur + 1) (page_count d - 1) /\
  last_preview_before_updown (fst r) = None /\ last_preview_used (fst r) = false /\
  remembered_preview (fst r) = None /\
  exists sc, slide_cache (fst r) = Some sc /\ doc sc = d /\ doc_closed sc = false /\
             renders sc = [].
Proof.
  intros Hf Hfp Hne Hpath Hd Hopen Hdir Hfile Hnotes Hlp Hl r cur. subst r cur.
  destruct (@SlideCache_init pixmap fitz_open f) as [sc|] eqn:Hi;
    [|unfold SlideCache_init in Hi; rewrite Hd in Hi; discriminate].
  assert (Hsc : doc sc = d /\ doc_closed sc = false /\ total_slides sc = page_count d /\
                renders sc = []).
  { unfold SlideCache_init in Hi. rewrite Hd in Hi. injection Hi as <-. auto. }
  destruct Hsc as (Hdoc & Hcl & Htot & Hren). rewrite <- Htot.
  unfold load_last_session, config_get. py_simpl. rewrite Hf, Hfp. cbn beta iota.
  rewrite (proj2 (String.eqb_neq f "") Hne), Hpath. cbn [negb andb].
  rewrite (load_pdf_unfold render save_ok fitz_open notes_for_pdf path_parent interpolate f true sc w
             Hopen Hi).
  unfold py_try. py_simpl.
  rewrite (config_set_ok _ _ _ Hdir). cbn beta iota.
  rewrite (config_set_ok _ _ _ Hfile). cbn beta iota.
  destruct (notes_for_pdf f) as [| |t]; [|done|]; unfold notes_of_file; py_simpl;
    unfold restored_slide, config_get; py_simpl;
    rewrite !lookup_insert_ne by done;
    destruct (config_session w !! "last_slide") as [v|]; simpl in Hlp, Hl;
    try rewrite Hlp; rewrite ?Hl; cbn beta iota; simpl;
    unfold load_reset, set_preview_clamped; cbv zeta;
    (case_match; simpl;
     match goal with Hc : (_ >=? _) = _ |- _ => simpl in Hc; rewrite Z.geb_leb in Hc end; zbools;
     split_and!; try reflexivity;
     first [eexists; split; [reflexivity|]; by auto | repeat case_match; zbools; lia]).
Qed.

(** X5: restoring the last session from a [last_file] that is non-empty,
    exists and opens, when the values the load writes and reads pass
    [configparser]'s interpolation and the PDF's sibling notes file is
    readable, returns without an error dialog (no slide is rendered, the
    refresh is deferred), sets [current] to [int(last_slide)] when it is a
    valid index and to 0 otherwise, clamps [preview] to [current + 1] and
    [total - 1], clears the optional slots and installs a fresh cache of
    that document. *)
Theorem last_session_restores_position (w : PresenterWindow pixmap) (f : string) (d : pdf) (l : Z) :
  config_session w !! "last_file" = Some f -> ConfigText.has_percent f = false ->
  f <> ""%string -> path_exists f = true -> fitz_open f = Some d ->
  (forall sc, slide_cache w = Some sc -> doc_closed sc = false) ->
  ConfigText.before_set_ok (path_parent f) = true -> ConfigText.before_set_ok f = true ->
  notes_for_pdf f <> FileError ->
  ConfigText.has_percent (default "0" (config_session w !! "last_slide")) = false ->
  ConfigText.py_int (default "0" (config_session w !! "last_slide")) = Some l ->
  let r := load_last_session render save_ok fitz_open notes_for_pdf path_parent interpolate
             path_exists w in
  let cur := if (0 <=? l) && (l <? page_count d) then l else 0 in
  snd r = Ok tt /\ error_dialogs (fst r) = error_dialogs w /\
  current_slide (fst r) = cur /\
  preview_slide (fst r) = Z.min (cur + 1) (page_count d - 1) /\
  last_preview_before_updown (fst r) = None /\ last_preview_used (fst r) = false /\
  remembered_preview (fst r) = None /\
  exists sc, slide_cache (fst r) = Some sc /\ doc sc = d /\ doc_closed sc = false /\
             renders sc = [].
Proof.
  intros Hf Hfp Hne Hpath Hd Hopen Hdir Hfile Hnotes Hlp Hl r cur.
  exact (last_session_load w f d l Hf Hfp Hne Hpath Hd Hopen Hdir Hfile Hnotes Hlp Hl).
Qed.

Lemma update_slides_saves_current (w : PresenterWindow pixmap) :
  snd (update_slides render save_ok w) = Ok tt -> slide_cache w <> None ->
  config_session (fst (update_slides render save_ok w)) !! "last_slide"
  = Some (ConfigText.str_of_Z (current_slide w)).
Proof.
  unfold update_slides, on_cache, config_set, config_save. py_simpl.
  destruct (slide_cache w) as [sc|] eqn:Hsc; [|congruence]. intros H _.
  repeat (case_match; unfold mret, PyM_ret in *; simplify_eq/=);
    by rewrite lookup_insert_eq.
Qed.

(** X14: the [last_slide] saved by a successful refresh is the slide the
    next session restores, for the same document, when the rest of the
    restore meets the conditions of X5. *)
Theorem session_round_trip (w w0 : PresenterWindow pixmap) (sc : SlideCache pixmap)
    (f : string) (d : pdf) :
  slide_cache w = Some sc -> 0 <= current_slide w < total_slides sc ->
  snd (update_slides render save_ok w) = Ok tt ->
  config_session w0 !! "last_slide"
    = config_session (fst (update_slides render save_ok w)) !! "last_slide" ->
  config_session w0 !! "last_file" = Some f -> ConfigText.has_percent f = false ->
  f <> ""%string -> path_exists f = true ->
  fitz_open f = Some d -> page_count d = total_slides sc ->
  (forall sc0, slide_cache w0 = Some sc0 -> doc_closed sc0 = false) ->
  ConfigText.before_set_ok (path_parent f) = true -> ConfigText.before_set_ok f = true ->
  notes_for_pdf f <> FileError ->
  current_slide (fst (load_last_session render save_ok fitz_open notes_for_pdf path_parent
                        interpolate path_exists w0))
  = current_slide w.
Proof.
  intros Hsc Hcur Hok Hcfg Hf Hfp Hne Hpath Hd Hn Hopen Hdir Hfile Hnotes.
  rewrite update_slides_saves_current in Hcfg by congruence.
  assert (Hlp : ConfigText.has_percent (default "0" (config_session w0 !! "last_slide")) = false)
    by (rewrite Hcfg; apply has_percent_str_of_Z; lia).
  assert (Hl : ConfigText.py_int (default "0" (config_session w0 !! "last_slide"))
               = Some (current_slide w))
    by (rewrite Hcfg; apply py_int_str_of_Z; lia).
  destruct (last_session_load w0 f d (current_slide w) Hf Hfp Hne Hpath Hd Hopen Hdir Hfile
              Hnotes Hlp Hl) as (_ & _ & H3 & _).
  rewrite H3.
  destruct (Z.leb_spec 0 (current_slide w)); [|lia].
  destruct (Z.ltb_spec (current_slide w) (page_count d)); [|lia]. reflexivity.
Qed.

Lemma load_pdf_on_closed_cache (w : PresenterWindow pixmap) (sc : SlideCache pixmap)
    (path : string) (restore : bool) :
  slide_cache w = Some sc -> doc_closed sc = true ->
  load_pdf render save_ok fitz_open notes_for_pdf path_parent interpolate path restore w
  = (set_error_dialogs ("Failed to load PDF" :: error_dialogs w) w, Ok tt).
Proof.
  intros Hsc Hcl. unfold load_pdf, py_try. py_simpl. rewrite Hsc.
  unfold on_cache, close. rewrite Hsc, Hcl. simpl.
  rewrite (set_slide_cache_same w sc Hsc). reflexivity.
Qed.

(** X7: after a failed load over an open document, every later load of
    any path only shows the error dialog and changes nothing else, and
    closing the window raises: the closed document is never replaced. *)
Theorem failed_load_blocks_later_loads (w : PresenterWindow pixmap) (sc : SlideCache pixmap)
    (bad : string) (restore : bool) :
  slide_cache w = Some sc -> doc_closed sc = false -> fitz_open bad = None ->
  let w1 := fst (load_pdf render save_ok fitz_open notes_for_pdf path_parent interpolate bad restore w) in
  (forall (path : string) (restore' : bool),
     load_pdf render save_ok fitz_open notes_for_pdf path_parent interpolate path restore' w1
     = (set_error_dialogs ("Failed to load PDF" :: error_dialogs w1) w1, Ok tt)) /\
  close_event w1 = (w1, Exc).
Proof.
  intros Hsc Hopen Hbad w1.
  assert (Hw1 : exists sc1, slide_cache w1 = Some sc1 /\ doc_closed sc1 = true).
  { subst w1. destruct w as [osc cur0 prev0 o0 u0 r0 nl0 ip0 cs ed]; simpl in *; subst osc.
    unfold load_pdf, py_try, SlideCache_init. py_simpl.
    unfold on_cache, close. simpl. rewrite Hopen. simpl. rewrite Hbad. simpl.
    eexists; split; reflexivity. }
  destruct Hw1 as (sc1 & Hsc1 & Hcl1). clearbody w1. split.
  - intros path restore'. exact (load_pdf_on_closed_cache w1 sc1 path restore' Hsc1 Hcl1).
  - unfold close_event, on_cache, close. py_simpl. rewrite Hsc1. simpl. rewrite Hsc1. simpl. rewrite Hcl1. simpl.
    rewrite (set_slide_cache_same w1 sc1 Hsc1). reflexivity.
Qed.

End Loading.

Section Dropping.
Local Open Scope Z_scope.
Context {pixmap : Type} (render : pdf -> Z -> Z -> option pixmap) (save_ok : bool)
  (fitz_open : string -> option pdf) (notes_for_pdf : string -> notes_file)
  (path_parent : string -> string) (interpolate : gmap string string -> string -> option string)
  (read_notes_file : string -> notes_file).






End Dropping.

End SessionProofs.


Module Scenarios.

Import Concrete PresenterProofs.
Local Open Scope string_scope.

(** C1 (counterexample): on a one-page deck at [current = 0, preview = 0]
    the advance fires, but the preview is clamped to 0 and never reaches
    the end sentinel 1. *)
Lemma advance_end_sentinel_counterexample :
  ~ (forall (w : PresenterWindow bitmap) (sc : SlideCache bitmap),
       slide_cache w = Some sc -> 1 <= total_slides sc ->
       preview_slide w < total_slides sc -> total_slides sc <= current_slide w + 1 ->
       current_slide (fst (step Advance w)) = preview_slide w /\
    preview_slide (fst (step Advance w)) = total_slides sc).
Proof.
  intros H.
  destruct (H (window_at one_cache 0 0) one_cache eq_refl) as [_ Hp];
    try (vm_compute; congruence).
  vm_compute in Hp. discriminate.
Qed.

Lemma advance_clamps_preview_witness :
  current_slide (fst (step Advance (window_at one_cache 0 0))) = 0 /\
    preview_slide (fst (step Advance (window_at one_cache 0 0))) = Z.min (0 + 1) (1 - 1).
Proof.
  apply (advance_clamps_preview render save_ok (window_at one_cache 0 0) one_cache);
    [reflexivity | vm_compute; reflexivity].
Defined.

(** C2 (counterexample): on a ten-page deck, three backward preview steps
    from [current = 5, preview = 6] leave the jump origin unset, so the
    stated origin 5 is never recorded. *)
Lemma jump_origin_counterexample :
  ~ (forall (w : PresenterWindow bitmap) (sc : SlideCache bitmap),
       slide_cache w = Some sc -> 7 <= total_slides sc ->
       current_slide w = 5 -> preview_slide w = 6 ->
       last_preview_before_updown w = None -> remembered_preview w = None ->
       let w3 := fst (step PreviewStepBackward (fst (step PreviewStepBackward
                        (fst (step PreviewStepBackward w))))) in
       let w4 := fst (step PreviewRestore w3) in
       let w5 := fst (step Advance w4) in
       preview_slide w3 = 3 /\ last_preview_before_updown w3 = Some 5 /\
    preview_slide w4 = 5 /\
    current_slide w5 = 5 /\ preview_slide w5 = 6 /\ last_preview_before_updown w5 = None).
Proof.
  intros H.
  specialize (H (window_at ten_cache 5 6) ten_cache eq_refl ltac:(vm_compute; congruence)
                eq_refl eq_refl eq_refl eq_refl).
  vm_compute in H. destruct H as (_ & Ho & _). discriminate.
Qed.

Lemma jump_origin_scenario_witness :
  let w := window_at ten_cache 5 6 in
  let w3 := fst (step PreviewStepBackward (fst (step PreviewStepBackward
                   (fst (step PreviewStepBackward w))))) in
  let w4 := fst (step PreviewRestore w3) in
  let w5 := fst (step Advance w4) in
  (current_slide w3 = 5 /\ preview_slide w3 = 3 /\ last_preview_before_updown w3 = None) /\
    w4 = w3 /\
    (current_slide w5 = 3 /\ preview_slide w5 = 4 /\
    last_preview_before_updown w5 = Some 5 /\ last_preview_used w5 = last_preview_used w).
Proof.
  exact (proj2 (proj2 (jump_origin_scenario render save_ok (window_at ten_cache 5 6) ten_cache
           eq_refl ltac:(vm_compute; congruence) eq_refl eq_refl eq_refl eq_refl))).
Defined.


(** C4 (counterexample): after loading a one-page document, a failing
    load of another path replaces the slide cache by the closed, emptied
    one, so the state does change. *)
Lemma load_failure_counterexample :
  ~ (forall (path : string) (w : PresenterWindow bitmap),
       fitz_open path = None ->
       (exists sc, slide_cache w = Some sc /\ doc_closed sc = false) ->
       slide_cache (fst (load path w)) = slide_cache w).
Proof.
  intros H.
  assert (E := H "bad.pdf" (fst (load "one.pdf" fresh_window)) eq_refl
                 ltac:(eexists; split; reflexivity)).
  vm_compute in E. discriminate.
Qed.

Lemma load_failure_closes_previous_witness :
  let w' := fst (load "bad.pdf" (window_at ten_cache 3 4)) in
  snd (load "bad.pdf" (window_at ten_cache 3 4)) = Ok tt /\
    error_dialogs w' = "Failed to load PDF" :: error_dialogs (window_at ten_cache 3 4) /\
    current_slide w' = 3 /\ preview_slide w' = 4 /\
    last_preview_before_updown w' = None /\ last_preview_used w' = false /\
    remembered_preview w' = None /\
    exists sc', slide_cache w' = Some sc' /\ doc sc' = doc ten_cache /\ doc_closed sc' = true /\
    cache sc' = ∅ /\ fullscreen_cache sc' = ∅ /\
    (forall p high_res, snd (get_slide render p high_res sc') = Exc).
Proof.
  exact (load_failure_closes_previous render save_ok fitz_open notes_for_pdf path_parent interpolate
           "bad.pdf" false
           (window_at ten_cache 3 4) ten_cache eq_refl eq_refl eq_refl).
Defined.

Lemma violated_preconditions_noop_witness :
  step Retreat (window_at ten_cache 0 1) = (window_at ten_cache 0 1, Ok tt) /\
    step Advance (window_at ten_cache 9 10) = (window_at ten_cache 9 10, Ok tt) /\
    step PreviewStepForward (window_at ten_cache 8 9) = (window_at ten_cache 8 9, Ok tt) /\
    step PreviewStepBackward (window_at ten_cache 1 0) = (window_at ten_cache 1 0, Ok tt) /\
    step PreviewRestore (window_at ten_cache 2 3) = (window_at ten_cache 2 3, Ok tt) /\
    step Recall (window_at ten_cache 2 3) = (window_at ten_cache 2 3, Ok tt).
Proof.
  split; [|split; [|split; [|split; [|split]]]].
  - apply (violated_preconditions_noop render save_ok (window_at ten_cache 0 1) ten_cache eq_refl).
    reflexivity.
  - apply (violated_preconditions_noop render save_ok (window_at ten_cache 9 10) ten_cache eq_refl).
    vm_compute; congruence.
  - apply (violated_preconditions_noop render save_ok (window_at ten_cache 8 9) ten_cache eq_refl).
    vm_compute; congruence.
  - apply (violated_preconditions_noop render save_ok (window_at ten_cache 1 0) ten_cache eq_refl).
    reflexivity.
  - apply (violated_preconditions_noop render save_ok (window_at ten_cache 2 3) ten_cache eq_refl).
    reflexivity.
  - apply (violated_preconditions_noop render save_ok (window_at ten_cache 2 3) ten_cache eq_refl).
    reflexivity.
Defined.

Lemma get_slide_idempotent_witness :
  exists sc1 bm,
    get_slide render 0 false ten_cache = (sc1, Ok bm) /\
    get_slide render 0 false sc1 = (sc1, Ok bm) /\
    (length (renders sc1) <= S (length (renders ten_cache)))%nat.
Proof.
  apply (get_slide_idempotent render ten_cache 0 false eq_refl).
  - vm_compute; split; congruence.
  - discriminate.
Defined.

(** C10 (counterexample): loading a zero-page document does not succeed
    silently: the refresh that follows raises and the load shows the
    "Failed to load PDF" dialog. *)
Lemma load_zero_pages_counterexample :
  ~ (forall (path : string) (w : PresenterWindow bitmap) (d : pdf),
       fitz_open path = Some d -> page_count d = 0 ->
       error_dialogs (fst (load path w)) = error_dialogs w /\
    current_slide (fst (load path w)) = 0 /\ preview_slide (fst (load path w)) = -1).
Proof.
  intros H.
  destruct (H "empty.pdf" fresh_window {| pdf_name := "empty.pdf"; page_count := 0 |}
              eq_refl eq_refl) as [E _].
  vm_compute in E. discriminate.
Qed.

Lemma load_zero_pages_witness :
  let w' := fst (load "empty.pdf" fresh_window) in
  snd (load "empty.pdf" fresh_window) = Ok tt /\
    current_slide w' = 0 /\ preview_slide w' = -1 /\
    (exists sc', slide_cache w' = Some sc' /\
    doc sc' = {| pdf_name := "empty.pdf"; page_count := 0 |} /\ total_slides sc' = 0) /\
    error_dialogs w' = "Failed to load PDF" :: error_dialogs fresh_window.
Proof.
  exact (load_zero_pages render save_ok fitz_open notes_for_pdf path_parent interpolate "empty.pdf"
           {| pdf_name := "empty.pdf"; page_count := 0 |} fresh_window
           eq_refl eq_refl (fun sc H => ltac:(discriminate H)) eq_refl eq_refl
           ltac:(discriminate)).
Defined.

End Scenarios.


(** Witnesses of the properties of the extra modules. *)
Module ExtraScenarios.

Import Concrete PresenterProofs NotesSplitProofs CacheProofs SessionProofs.
Local Open Scope string_scope.

Lemma key_events_keep_ranges_witness :
  nav_inv 10 (window (ten_state 0 1)) /\
  Forall (fun s' => nav_inv 10 (window s'))
    (run_key_events render save_ok 1 [PresenterKey Key_F5 false; AudienceKey Key_Right;
                                      PresenterKey Key_Up false; PresenterKey Key_R false;
                                      PresenterKey Key_F5 true; AudienceKey Key_B]
       (ten_state 0 1)).
Proof.
  assert (H : nav_inv 10 (window (ten_state 0 1))).
  { unfold nav_inv; simpl. split; [eexists; split; reflexivity|].
    repeat split; intros; try discriminate; lia. }
  split; [exact H|].
  exact (key_events_keep_ranges render save_ok 1 10 _ (ten_state 0 1) H).
Defined.

Lemma f5_restarts_from_first_slide_witness :
  slide_cache (window {| window := window_at one_cache 0 0; blanked := false |})
    = Some one_cache /\
  preview_slide (window (fst (key_press_event render save_ok 1 Key_F5 false
                                {| window := window_at one_cache 0 0; blanked := false |})))
    = 1.
Proof.
  split; [reflexivity|].
  exact (proj1 (proj2 (f5_restarts_from_first_slide render save_ok 1
                         {| window := window_at one_cache 0 0; blanked := false |}
                         one_cache eq_refl))).
Defined.

Lemma no_screen_presentation_raises_witness :
  slide_cache (window (ten_state 3 4)) = Some ten_cache /\
  snd (key_press_event render save_ok 0 Key_F5 false (ten_state 3 4)) = Exc.
Proof.
  split; [reflexivity|].
  exact (proj1 (no_screen_presentation_raises render save_ok 0 (ten_state 3 4) ten_cache false
                  eq_refl eq_refl)).
Defined.

Lemma last_session_restores_position_witness :
  config_session saved_window !! "last_file" = Some "ten.pdf" /\
  current_slide (fst (load_last_session render save_ok fitz_open notes_for_pdf path_parent
                        interpolate path_exists saved_window)) = 7.
Proof.
  split; [vm_compute; reflexivity|].
  exact (proj1 (proj2 (proj2
           (last_session_restores_position render save_ok fitz_open notes_for_pdf path_parent
              interpolate path_exists saved_window "ten.pdf"
              {| pdf_name := "ten.pdf"; page_count := 10 |} 7
              ltac:(vm_compute; reflexivity) eq_refl ltac:(discriminate) eq_refl eq_refl
              (fun sc H => ltac:(discriminate H)) eq_refl eq_refl ltac:(discriminate)
              ltac:(vm_compute; reflexivity) ltac:(vm_compute; reflexivity))))).
Defined.


Lemma failed_load_blocks_later_loads_witness :
  fitz_open "missing.pdf" = None /\
  snd (close_event (fst (load_pdf render save_ok fitz_open notes_for_pdf path_parent interpolate
                           "missing.pdf" false (window_at ten_cache 3 4)))) = Exc.
Proof.
  split; [reflexivity|].
  pose proof (proj2 (failed_load_blocks_later_loads render save_ok fitz_open notes_for_pdf
                       path_parent interpolate (window_at ten_cache 3 4) ten_cache "missing.pdf"
                       false eq_refl eq_refl eq_refl)) as H.
  cbv zeta in H. rewrite H. reflexivity.
Defined.

Lemma get_slide_bad_index_witness :
  cache ten_cache !! 10 = None /\ get_slide render 10 false ten_cache = (ten_cache, Exc) /\
  get_slide render (-1) false (open_cache "empty.pdf" 0) = (open_cache "empty.pdf" 0, Loops).
Proof.
  split; [reflexivity|]. split.
  - apply (proj1 (get_slide_bad_index render ten_cache 10 false eq_refl)).
    right. simpl. lia.
  - apply (proj2 (get_slide_bad_index render (open_cache "empty.pdf" 0) (-1) false eq_refl));
      [reflexivity|reflexivity|lia].
Defined.

Lemma get_slide_negative_index_alias_witness :
  doc_closed ten_cache = false /\
  snd (get_slide render (-1) false ten_cache) = Ok (9, 150).
Proof.
  split; [reflexivity|].
  exact (proj1 (get_slide_negative_index_alias render ten_cache (9, 150)
                  eq_refl ltac:(simpl; lia) eq_refl eq_refl eq_refl)).
Defined.

Lemma get_slide_returns_rendering_witness :
  cache_sound render ten_cache /\
  render (doc ten_cache) 8 300 = Some (8, 300).
Proof.
  assert (Hs : cache_sound render ten_cache).
  { split; intros k pm H; simpl in H; rewrite lookup_empty in H; discriminate. }
  split; [exact Hs|].
  exact (proj1 (get_slide_returns_rendering render ten_cache
                  (fst (get_slide render (-2) true ten_cache)) (-2) true (8, 300)
                  Hs eq_refl)).
Defined.

Lemma notes_without_dashes_witness :
  Notes.parse_notes "  slide one  " = {[0 := "slide one"]}.
Proof.
  exact (notes_without_dashes "  slide one  "
           ltac:(intros c Hc; simpl in Hc; intuition (subst; discriminate))).
Defined.

Lemma notes_values_stripped_witness :
  Notes.parse_notes "intro --- body " !! 1 = Some "body" /\
  Notes.strip "body" = "body".
Proof.
  assert (H : Notes.parse_notes "intro --- body " !! 1 = Some "body") by (vm_compute; reflexivity).
  split; [exact H|].
  exact (proj2 (notes_values_stripped "intro --- body " 1 "body" H)).
Defined.

Lemma session_round_trip_witness :
  snd (update_slides render save_ok (window_at ten_cache 7 8)) = Ok tt /\
  current_slide (fst (load_last_session render save_ok fitz_open notes_for_pdf path_parent
                        interpolate path_exists saved_window)) = 7.
Proof.
  assert (H : snd (update_slides render save_ok (window_at ten_cache 7 8)) = Ok tt)
    by reflexivity.
  split; [exact H|].
  exact (session_round_trip render save_ok fitz_open notes_for_pdf path_parent interpolate
           path_exists (window_at ten_cache 7 8) saved_window ten_cache "ten.pdf"
           {| pdf_name := "ten.pdf"; page_count := 10 |}
           eq_refl ltac:(simpl; lia) H ltac:(vm_compute; reflexivity)
           ltac:(vm_compute; reflexivity) eq_refl ltac:(discriminate) eq_refl eq_refl eq_refl
           (fun sc H => ltac:(discriminate H)) eq_refl eq_refl ltac:(discriminate)).
Defined.

End ExtraScenarios.
